(** * IPython application startup: layered configuration and fault-isolated
      start-up passes

    A shallow embedding of [IPython/core/ipapp.py] (class [IPythonApp]):
    the stage methods that rewrite the three raw configurations and the
    master configuration, and the three post-construction passes that load
    extensions, run statements and run files. *)

From Stdlib Require Import ZArith.
From stdpp Require Import base option strings list gmap fin_maps.

Local Open Scope string_scope.
Local Open Scope Z_scope.
Local Open Scope list_scope.
Local Set Warnings "-register-all".

(** ** Configuration values *)

(** Values held by a configuration key.  Python is dynamically typed; the
    constructors cover what the argument table and the configuration files
    store: booleans, integers, strings and sequences.  [NoConfigDefault] is
    the sentinel object imported from [IPython.config.loader], the default
    of every command-line option. *)
Inductive Value : Type :=
| VBool (b : bool)
| VInt (z : Z)
| VStr (s : string)
| VList (l : list Value)
| NoConfigDefault.

(** Python truth value, as tested by [if config.Global.classic:].  The
    sentinel is a plain object and therefore true. *)
Definition truthy (v : Value) : bool :=
  match v with
  | VBool b => b
  | VInt z => negb (z =? 0)
  | VStr s => negb (String.eqb s "")
  | VList l => match l with [] => false | _ :: _ => true end
  | NoConfigDefault => true
  end.

(** Python's [==] on configuration values.  [bool] is a subclass of [int],
    so [False == 0] and [True == 1] hold. *)
Fixpoint py_eq (a b : Value) : bool :=
  match a, b with
  | VBool x, VBool y => Bool.eqb x y
  | VBool x, VInt y => Z.b2z x =? y
  | VInt x, VBool y => x =? Z.b2z y
  | VInt x, VInt y => x =? y
  | VStr s, VStr t => String.eqb s t
  | VList l, VList m =>
      (fix all2 (l : list Value) (m : list Value) {struct l} : bool :=
         match l, m with
         | [], [] => true
         | x :: l', y :: m' => py_eq x y && all2 l' m'
         | _, _ => false
         end) l m
  | NoConfigDefault, NoConfigDefault => true
  | _, _ => false
  end.

(** Iteration of a [for x in v] loop: a list yields its items, a string its
    one-character substrings, anything else raises [TypeError] ([None]). *)
Fixpoint chars (s : string) : list Value :=
  match s with
  | EmptyString => []
  | String c s' => VStr (String c EmptyString) :: chars s'
  end.

Definition py_iter (v : Value) : option (list Value) :=
  match v with
  | VList l => Some l
  | VStr s => Some (chars s)
  | VBool _ | VInt _ | NoConfigDefault => None
  end.

(** ** Configuration trees *)

(** Modelled from the spec: the class [Config] of [IPython.config.loader] is
    not among the sources.  A configuration tree maps a section name to a
    map from key names to values; a key is either absent or present with a
    value, and a section comes into being on its first write. *)
Abbreviation Section_ := (gmap string Value).
Abbreviation Config := (gmap string (gmap string Value)).

(** [config.<sec>]: the section, empty when it was never written. *)
Definition cfg_section (c : Config) (sec : string) : Section_ :=
  default ∅ (c !! sec).

(** [config.<sec>.<key>], [None] when [hasattr] is false. *)
Definition cfg_get (c : Config) (sec key : string) : option Value :=
  cfg_section c sec !! key.

(** [hasattr(config.<sec>, key)] *)
Definition hasattr (c : Config) (sec key : string) : bool :=
  bool_decide (is_Some (cfg_get c sec key)).

(** [config.<sec>.<key> = v] *)
Definition cfg_set (c : Config) (sec key : string) (v : Value) : Config :=
  <[sec := <[key := v]> (cfg_section c sec)]> c.

(** [del config.<sec>.<key>] for a key that is present. *)
Definition cfg_del (c : Config) (sec key : string) : Config :=
  <[sec := delete key (cfg_section c sec)]> c.

(** The test [if hasattr(config.Global, k): if config.Global.k:]. *)
Definition flag_on (config : Config) (key : string) : bool :=
  match cfg_get config "Global" key with
  | Some v => truthy v
  | None => false
  end.

(** ** The command-line options *)

(** The rows of [cl_args]: the flag names of an option and the section and
    key it is stored under.  Every option defaults to [NoConfigDefault]. *)
Definition cl_args : list (list string * string * string) := [
  (["-autocall"], "InteractiveShell", "autocall");
  (["-autoindent"], "InteractiveShell", "autoindent");
  (["-noautoindent"], "InteractiveShell", "autoindent");
  (["-automagic"], "InteractiveShell", "automagic");
  (["-noautomagic"], "InteractiveShell", "automagic");
  (["-autoedit_syntax"], "InteractiveShell", "autoedit_syntax");
  (["-noautoedit_syntax"], "InteractiveShell", "autoedit_syntax");
  (["-banner"], "Global", "display_banner");
  (["-nobanner"], "Global", "display_banner");
  (["-c"], "InteractiveShell", "c");
  (["-cache_size"], "InteractiveShell", "cache_size");
  (["-classic"], "Global", "classic");
  (["-colors"], "InteractiveShell", "colors");
  (["-color_info"], "InteractiveShell", "color_info");
  (["-nocolor_info"], "InteractiveShell", "color_info");
  (["-confirm_exit"], "InteractiveShell", "confirm_exit");
  (["-noconfirm_exit"], "InteractiveShell", "confirm_exit");
  (["-deep_reload"], "InteractiveShell", "deep_reload");
  (["-nodeep_reload"], "InteractiveShell", "deep_reload");
  (["-editor"], "InteractiveShell", "editor");
  (["-log"; "-l"], "InteractiveShell", "logstart");
  (["-logfile"; "-lf"], "InteractiveShell", "logfile");
  (["-logplay"; "-lp"], "InteractiveShell", "logplay");
  (["-pdb"], "InteractiveShell", "pdb");
  (["-nopdb"], "InteractiveShell", "pdb");
  (["-pprint"], "InteractiveShell", "pprint");
  (["-nopprint"], "InteractiveShell", "pprint");
  (["-prompt_in1"; "-pi1"], "InteractiveShell", "prompt_in1");
  (["-prompt_in2"; "-pi2"], "InteractiveShell", "prompt_in2");
  (["-prompt_out"; "-po"], "InteractiveShell", "prompt_out");
  (["-quick"], "Global", "quick");
  (["-readline"], "InteractiveShell", "readline_use");
  (["-noreadline"], "InteractiveShell", "readline_use");
  (["-screen_length"; "-sl"], "InteractiveShell", "screen_length");
  (["-separate_in"; "-si"], "InteractiveShell", "separate_in");
  (["-separate_out"; "-so"], "InteractiveShell", "separate_out");
  (["-separate_out2"; "-so2"], "InteractiveShell", "separate_out2");
  (["-nosep"], "Global", "nosep");
  (["-term_title"], "InteractiveShell", "term_title");
  (["-noterm_title"], "InteractiveShell", "term_title");
  (["-xmode"], "InteractiveShell", "xmode");
  (["-ext"], "Global", "extra_extension");
  (["-pylab"; "-wthread"; "-qthread"; "-q4thread"; "-gthread"], "Global", "threaded_shell")
].

(** The section and key an option writes. *)
Definition dest (row : list string * string * string) : string * string :=
  (row.1.2, row.2).

(** A tree that the command-line loader can produce holds keys of the table
    only. *)
Definition from_cl_args (c : Config) : Prop :=
  ∀ sec key, is_Some (cfg_get c sec key) -> In (sec, key) (map dest cl_args).

(** ** The application object *)

Record IPythonApp : Type := mkApp {
  default_config : Config;
  command_line_config : Config;
  file_config : Config;
  master_config : Config
}.

Definition set_command_line_config (c : Config) (self : IPythonApp) :=
  mkApp (default_config self) c (file_config self) (master_config self).
Definition set_file_config (c : Config) (self : IPythonApp) :=
  mkApp (default_config self) (command_line_config self) c (master_config self).
Definition set_master_config (c : Config) (self : IPythonApp) :=
  mkApp (default_config self) (command_line_config self) (file_config self) c.

(** ** Exceptions *)

Inductive Exn : Type :=
| TypeError
| AttributeError
| IOError
| OtherError (name : string).

Inductive Result (A : Type) : Type :=
| Ok (a : A)
| Raise (e : Exn).
Arguments Ok {A} a.
Arguments Raise {A} e.

(** ** Stages that rewrite the raw configurations *)

Section FileStage.

(** [Application.load_file_config] of the base class, which reads the
    configuration file; the base class is not among the sources, so its
    effect on the application is a parameter. *)
Variable super_load_file_config : IPythonApp -> IPythonApp.

Definition load_file_config (self : IPythonApp) : IPythonApp :=
  if flag_on (command_line_config self) "quick"
  then set_file_config ∅ self
  else super_load_file_config self.

End FileStage.

(** [post_load_file_config]: [list.append] exists on lists only, so an
    [extensions] key holding anything else raises [AttributeError]. *)
Definition post_load_file_config (self : IPythonApp) : Result IPythonApp :=
  match cfg_get (command_line_config self) "Global" "extra_extension" with
  | Some extra =>
      let fc :=
        if hasattr (file_config self) "Global" "extensions"
        then file_config self
        else cfg_set (file_config self) "Global" "extensions" (VList []) in
      match cfg_get fc "Global" "extensions" with
      | Some (VList l) =>
          let fc' := cfg_set fc "Global" "extensions" (VList (l ++ [extra])) in
          Ok (set_command_line_config
                (cfg_del (command_line_config self) "Global" "extra_extension")
                (set_file_config fc' self))
      | _ => Raise AttributeError
      end
  | None => Ok self
  end.

(** ** Derived settings *)

Definition classic_rule (config : Config) : Config :=
  let config := cfg_set config "InteractiveShell" "cache_size" (VInt 0) in
  let config := cfg_set config "InteractiveShell" "pprint" (VInt 0) in
  let config := cfg_set config "InteractiveShell" "prompt_in1" (VStr ">>> ") in
  let config := cfg_set config "InteractiveShell" "prompt_in2" (VStr "... ") in
  let config := cfg_set config "InteractiveShell" "prompt_out" (VStr "") in
  (* a chained assignment stores into its targets from left to right *)
  let config := cfg_set config "InteractiveShell" "separate_in" (VStr "") in
  let config := cfg_set config "InteractiveShell" "separate_out" (VStr "") in
  let config := cfg_set config "InteractiveShell" "separate_out2" (VStr "") in
  let config := cfg_set config "InteractiveShell" "colors" (VStr "NoColor") in
  cfg_set config "InteractiveShell" "xmode" (VStr "Plain").

Definition nosep_rule (config : Config) : Config :=
  let config := cfg_set config "InteractiveShell" "separate_in" (VStr "0") in
  let config := cfg_set config "InteractiveShell" "separate_out" (VStr "0") in
  cfg_set config "InteractiveShell" "separate_out2" (VStr "0").

Definition pre_construct (self : IPythonApp) : IPythonApp :=
  let config := master_config self in
  let config := if flag_on config "classic" then classic_rule config else config in
  let config := if flag_on config "nosep" then nosep_rule config else config in
  set_master_config config self.

(** ** Merging the three sources *)

(** Modelled from the spec: the merge of the default, file and command-line
    trees is done by the base class [Application], which is not among the
    sources.  A command-line key holding the sentinel counts as absent; a
    tree of higher precedence wins key by key, section by section. *)
Definition is_unset (v : Value) : bool :=
  match v with NoConfigDefault => true | _ => false end.

Definition drop_unset_section (sec : Section_) : Section_ :=
  omap (M := gmap string) (λ v : Value, if is_unset v then None else Some v) sec.

Definition drop_unset (c : Config) : Config :=
  fmap (M := gmap string) drop_unset_section c.

Definition merge_config (hi lo : Config) : Config :=
  union_with (λ a b : Section_, Some (a ∪ b)) hi lo.

Definition resolve (defaultConfig fileConfig commandLineConfig : Config) : Config :=
  merge_config (drop_unset commandLineConfig) (merge_config fileConfig defaultConfig).

(** Modelled from the spec: the stage that builds the master configuration
    from the three raw trees of the application (stage order of 4.3). *)
Definition merge_configs (self : IPythonApp) : IPythonApp :=
  set_master_config
    (resolve (default_config self) (file_config self) (command_line_config self))
    self.

(** What the spec's words say a key of the resolved tree holds. *)
Definition by_precedence (d f c : Config) (sec key : string) : option Value :=
  match cfg_get c sec key with
  | Some v => if is_unset v
              then match cfg_get f sec key with
                   | Some w => Some w
                   | None => cfg_get d sec key
                   end
              else Some v
  | None => match cfg_get f sec key with
            | Some w => Some w
            | None => cfg_get d sec key
            end
  end.

(** ** The interactive shell and the log, seen from the application *)

Inductive Level : Type := DEBUG | INFO | WARN.

(** Calls made on [self.shell]. *)
Inductive ShellCall : Type :=
| set_display_banner (b : bool)
| show_banner
| load_extension (ext : Value)
| runlines (line : Value)
| safe_execfile (fname : string)        (* with [self.shell.user_ns] *)
| safe_execfile_ipy (fname : string)
| showtraceback.

(** What the application does to the outside, in order.  A log record keeps
    the format string and its argument apart: [Log WARN f (Some x)] is
    [self.log.warn(f % x)].  A shell call is recorded with its outcome,
    [None] for a normal return and [Some e] for an exception. *)
Inductive Event : Type :=
| Log (lvl : Level) (fmt : string) (arg : option Value)
| Shell (c : ShellCall) (outcome : option Exn)
| PrintLine.

Abbreviation Trace := (list Event).

(** The collaborators: the shell, the file system helpers [filefind] and
    [os.path.isfile], and two attributes of the application that the passes
    read.  Each answer may depend on everything that happened before. *)
Record Env : Type := mkEnv {
  ipythondir : string;
  log_level : Z;
  shell_raises : Trace -> ShellCall -> option Exn;
  filefind : Trace -> Value -> list string -> Result string;
  isfile : Trace -> string -> bool
}.

(** ** A monad for code that logs, calls the shell and may raise *)

Definition M (A : Type) : Type := Trace -> Result A * Trace.

Definition ret {A} (a : A) : M A := fun h => (Ok a, h).

Definition bind {A B} (m : M A) (k : A -> M B) : M B :=
  fun h => match m h with
           | (Ok a, h') => k a h'
           | (Raise e, h') => (Raise e, h')
           end.

Definition raise {A} (e : Exn) : M A := fun h => (Raise e, h).

(** [try: body / except: handler] with a bare [except], which catches every
    exception; one raised by the handler itself propagates. *)
Definition try_except {A} (body handler : M A) : M A :=
  fun h => match body h with
           | (Ok a, h') => (Ok a, h')
           | (Raise _, h') => handler h'
           end.

Declare Scope run_scope.
Delimit Scope run_scope with run.
Notation "'let!' x ':=' m 'in' k" := (bind m (fun x => k))
  (at level 10, x name, m at level 100, k at level 200) : run_scope.
Notation "m >> k" := (bind m (fun _ => k))
  (at level 90, right associativity) : run_scope.
Local Open Scope run_scope.

Definition log (lvl : Level) (fmt : string) (arg : option Value) : M unit :=
  fun h => (Ok tt, h ++ [Log lvl fmt arg]).

Definition print_line : M unit := fun h => (Ok tt, h ++ [PrintLine]).

(** Python's [str.endswith]. *)
Definition endswith (s suffix : string) : bool :=
  (String.length suffix <=? String.length s)%nat &&
  String.eqb
    (String.substring (String.length s - String.length suffix) (String.length suffix) s)
    suffix.

Fixpoint for_ {A} (items : list A) (body : A -> M unit) : M unit :=
  match items with
  | [] => ret tt
  | x :: rest => body x >> for_ rest body
  end.

(** [for x in v: body], where [v] is any value. *)
Definition for_in (v : Value) (body : Value -> M unit) : M unit :=
  match py_iter v with
  | Some items => for_ items body
  | None => raise TypeError
  end.

Section Passes.

Variable env : Env.
Variable self : IPythonApp.

Definition call (c : ShellCall) : M unit :=
  fun h => match shell_raises env h c with
           | None => (Ok tt, h ++ [Shell c None])
           | Some e => (Raise e, h ++ [Shell c (Some e)])
           end.

Definition call_filefind (fname : Value) (path : list string) : M string :=
  fun h => (filefind env h fname path, h).

Definition call_isfile (fname : string) : M bool :=
  fun h => (Ok (isfile env h fname), h).

(** [self.master_config.Global.<key>], an [AttributeError] when absent. *)
Definition global_attr (key : string) : M Value :=
  match cfg_get (master_config self) "Global" key with
  | Some v => ret v
  | None => raise AttributeError
  end.

Definition _load_extensions : M unit :=
  try_except
    (if hasattr (master_config self) "Global" "extensions" then
       log DEBUG "Loading IPython extensions..." None >>
       let! extensions := global_attr "extensions" in
       for_in extensions (fun ext =>
         try_except
           (log INFO "Loading IPython extension: %s" (Some ext) >>
            call (load_extension ext))
           (log WARN "Error in loading extension: %s" (Some ext) >>
            call showtraceback))
     else ret tt)
    (log WARN "Unknown error in loading extensions:" None >>
     call showtraceback).

Definition _run_exec_lines : M unit :=
  try_except
    (if hasattr (master_config self) "Global" "exec_lines" then
       log DEBUG "Running code from Global.exec_lines..." None >>
       let! exec_lines := global_attr "exec_lines" in
       for_in exec_lines (fun line =>
         try_except
           (log INFO "Running code in user namespace: %s" (Some line) >>
            call (runlines line))
           (log WARN "Error in executing line in user namespace: %s" (Some line) >>
            call showtraceback))
     else ret tt)
    (log WARN "Unknown error in handling Global.exec_lines:" None >>
     call showtraceback).

(** The body of the loop over [exec_files]. *)
Definition exec_file (fname : Value) : M unit :=
  let! full_filename := call_filefind fname ["."; ipythondir env] in
  let! is_file := call_isfile full_filename in
  if is_file then
    if endswith full_filename ".py" then
      log INFO "Running file in user namespace: %s" (Some (VStr full_filename)) >>
      call (safe_execfile full_filename)
    else if endswith full_filename ".ipy" then
      log INFO "Running file in user namespace: %s" (Some (VStr full_filename)) >>
      call (safe_execfile_ipy full_filename)
    else
      log WARN "File does not have a .py or .ipy extension: <%s>"
          (Some (VStr full_filename))
  else ret tt.

Definition _run_exec_files : M unit :=
  try_except
    (if hasattr (master_config self) "Global" "exec_files" then
       log DEBUG "Running files in Global.exec_files..." None >>
       let! exec_files := global_attr "exec_files" in
       for_in exec_files exec_file
     else ret tt)
    (log WARN "Unknown error in handling Global.exec_files:" None >>
     call showtraceback).

(** [logging.INFO] *)
Definition logging_INFO : Z := 20.

Definition post_construct : M unit :=
  call (set_display_banner false) >>
  let! display_banner := global_attr "display_banner" in
  (if truthy display_banner then call show_banner else ret tt) >>
  (if log_level env <=? logging_INFO then print_line else ret tt) >>
  _load_extensions >>
  _run_exec_lines >>
  _run_exec_files.

End Passes.

(** ** Vocabulary of the statements and concrete start-ups *)

(** Three sources that disagree on the colour scheme; the command line left
    its option at the sentinel. *)
Definition colors_default : Config :=
  cfg_set ∅ "InteractiveShell" "colors" (VStr "LightBG").
Definition colors_file : Config :=
  cfg_set ∅ "InteractiveShell" "colors" (VStr "Linux").
Definition colors_unset : Config :=
  cfg_set ∅ "InteractiveShell" "colors" NoConfigDefault.

(** The keys written by the classic rule, all in section [InteractiveShell]. *)
Definition classic_keys : list string :=
  ["cache_size"; "pprint"; "prompt_in1"; "prompt_in2"; "prompt_out";
   "separate_in"; "separate_out"; "separate_out2"; "colors"; "xmode"].

(** An application whose master configuration only asks for the classic
    prompt. *)
Definition classic_app : IPythonApp :=
  mkApp ∅ ∅ ∅ (cfg_set ∅ "Global" "classic" (VBool true)).

Definition classic_nosep_app : IPythonApp :=
  mkApp ∅ ∅ ∅
    (cfg_set (cfg_set ∅ "Global" "classic" (VBool true))
             "Global" "nosep" (VBool true)).

Definition foo_app : IPythonApp :=
  mkApp ∅ (cfg_set ∅ "Global" "extra_extension" (VStr "foo")) ∅ ∅.

Definition quick_app : IPythonApp :=
  mkApp (cfg_set ∅ "Global" "display_banner" (VBool true))
        (cfg_set ∅ "Global" "quick" (VBool true)) ∅ ∅.

(** The diagnostic display of the shell does not itself raise. *)
Definition diag_ok (env : Env) : Prop :=
  ∀ h, shell_raises env h showtraceback = None.

(** One action of the extensions or statements pass: the inner
    [try]/[except] around a log record and a shell call. *)
Definition guarded (env : Env) (info warn : string) (mk : Value -> ShellCall)
    (x : Value) : M unit :=
  try_except
    (log INFO info (Some x) >> call env (mk x))
    (log WARN warn (Some x) >> call env showtraceback).

(** The events of one guarded action started after history [h]. *)
Definition action_events (env : Env) (info warn : string)
    (mk : Value -> ShellCall) (x : Value) (h : Trace) : list Event :=
  match shell_raises env (h ++ [Log INFO info (Some x)]) (mk x) with
  | None => [Log INFO info (Some x); Shell (mk x) None]
  | Some e => [Log INFO info (Some x); Shell (mk x) (Some e);
               Log WARN warn (Some x); Shell showtraceback None]
  end.

Fixpoint loop_events (env : Env) (info warn : string)
    (mk : Value -> ShellCall) (items : list Value) (h : Trace) : list Event :=
  match items with
  | [] => []
  | x :: rest =>
      let ev := action_events env info warn mk x h in
      ev ++ loop_events env info warn mk rest (h ++ ev)
  end.

(** Whether a log record is a warning whose argument is the string [name]. *)
Definition warns_about (name : string) (ev : Event) : bool :=
  match ev with
  | Log WARN _ (Some (VStr s)) => String.eqb s name
  | _ => false
  end.

(** A shell in which exactly the extension [b] fails to load. *)
Definition b_fails_env : Env :=
  mkEnv "/home/user/.ipython" 30
    (fun _ c =>
       match c with
       | load_extension (VStr s) =>
           if String.eqb s "b" then Some (OtherError "ImportError") else None
       | _ => None
       end)
    (fun _ _ _ => Raise IOError)
    (fun _ _ => false).

Definition abc_app : IPythonApp :=
  mkApp ∅ ∅ ∅
    (cfg_set ∅ "Global" "extensions" (VList [VStr "a"; VStr "b"; VStr "c"])).

(** What the spec's words say is done with a located file: by extension, a
    script run, a line-oriented run, or a warning. *)
Definition spec_dispatch (path : string) : list Event :=
  if endswith path ".py" then
    [Log INFO "Running file in user namespace: %s" (Some (VStr path));
     Shell (safe_execfile path) None]
  else if endswith path ".ipy" then
    [Log INFO "Running file in user namespace: %s" (Some (VStr path));
     Shell (safe_execfile_ipy path) None]
  else
    [Log WARN "File does not have a .py or .ipy extension: <%s>"
         (Some (VStr path))].

(** A listed name that is found as a regular file and whose run returns. *)
Definition runs_cleanly (env : Env) (fname : Value) (path : string) : Prop :=
  ∀ h,
    filefind env h fname ["."; ipythondir env] = Ok path ∧
    isfile env h path = true ∧
    shell_raises env h (safe_execfile path) = None ∧
    shell_raises env h (safe_execfile_ipy path) = None.

(** A file system that holds every name asked for, and a shell that runs
    every file without an exception. *)
Definition all_found_env : Env :=
  mkEnv "/home/user/.ipython" 30
    (fun _ _ => None)
    (fun _ fname _ => match fname with VStr s => Ok s | _ => Raise TypeError end)
    (fun _ _ => true).

Definition str_of (v : Value) : string :=
  match v with VStr s => s | _ => "" end.

Definition three_files_app : IPythonApp :=
  mkApp ∅ ∅ ∅
    (cfg_set ∅ "Global" "exec_files"
       (VList [VStr "a.py"; VStr "b.ipy"; VStr "c.txt"])).

(** A file system in which [docs] is found but is a directory. *)
Definition directory_env : Env :=
  mkEnv "/home/user/.ipython" 30
    (fun _ _ => None)
    (fun _ fname _ => match fname with VStr s => Ok s | _ => Raise TypeError end)
    (fun _ path => negb (String.eqb path "docs")).

Definition with_exec_files (files : list Value) : IPythonApp :=
  mkApp ∅ ∅ ∅ (cfg_set ∅ "Global" "exec_files" (VList files)).

(** The statements of [post_construct] that come before the three passes. *)
Definition before_passes (env : Env) (self : IPythonApp) : M unit :=
  call env (set_display_banner false) >>
  let! display_banner := global_attr self "display_banner" in
  (if truthy display_banner then call env show_banner else ret tt) >>
  (if log_level env <=? logging_INFO then print_line else ret tt).

(** A master configuration whose extensions key holds a number, with one
    statement and one file to run. *)
Definition bad_extensions_app : IPythonApp :=
  mkApp ∅ ∅ ∅
    (cfg_set
       (cfg_set
          (cfg_set
             (cfg_set ∅ "Global" "display_banner" (VBool true))
             "Global" "extensions" (VInt 5))
          "Global" "exec_lines" (VList [VStr "x = 1"]))
       "Global" "exec_files" (VList [VStr "a.py"])).

(** A start-up in which the first of two entries fails in each pass: the
    extension and the statement raise in the shell, the file is not found. *)
Definition first_fails_env : Env :=
  mkEnv "/home/user/.ipython" 30
    (fun _ c =>
       match c with
       | load_extension (VStr s) | runlines (VStr s) =>
           if String.eqb s "first.py" then Some (OtherError "Exception") else None
       | _ => None
       end)
    (fun _ fname _ =>
       match fname with
       | VStr s => if String.eqb s "first.py" then Raise IOError else Ok s
       | _ => Raise TypeError
       end)
    (fun _ _ => true).

Definition first_fails_app : IPythonApp :=
  mkApp ∅ ∅ ∅
    (cfg_set
       (cfg_set
          (cfg_set ∅ "Global" "extensions" (VList [VStr "first.py"; VStr "second.py"]))
          "Global" "exec_lines" (VList [VStr "first.py"; VStr "second.py"]))
       "Global" "exec_files" (VList [VStr "first.py"; VStr "second.py"])).

(** ** Stages outside the passes *)

(** A call of [warnings.warn]. *)
Inductive Warning : Type :=
| DeprecationWarning (msg : string).

(** The text of [threaded_shell_warning]. *)
Definition threaded_shell_msg : string :=
"

The IPython threaded shells and their associated command line
arguments (pylab/wthread/gthread/qthread/q4thread) have been 
deprecated.  See the %gui magic for information on the new interface.
".

Definition threaded_shell_warning : list Warning :=
  [DeprecationWarning threaded_shell_msg].

(** [post_load_command_line_config], with the warnings it issues. *)
Definition post_load_command_line_config (self : IPythonApp)
    : IPythonApp * list Warning :=
  let clc := command_line_config self in
  if hasattr clc "Global" "threaded_shell"
  then (set_command_line_config (cfg_del clc "Global" "threaded_shell") self,
        threaded_shell_warning)
  else (self, []).

Definition set_default_config (c : Config) (self : IPythonApp) :=
  mkApp c (command_line_config self) (file_config self) (master_config self).

Section Defaults.

(** [Application.create_default_config] of the base class, not among the
sources, and the [log_level] attribute of the application. *)
Variable super_create_default_config : IPythonApp -> IPythonApp.
Variable self_log_level : Z.

Definition create_default_config (self : IPythonApp) : IPythonApp :=
  let self := super_create_default_config self in
  let d := cfg_set (default_config self) "Global" "display_banner" (VBool true) in
  let d := cfg_set d "Global" "log_level" (VInt self_log_level) in
  set_default_config d self.

End Defaults.

(** A master configuration with the [nosep] flag and a prompt of its own. *)
Definition nosep_app : IPythonApp :=
  mkApp ∅ ∅ ∅
    (cfg_set (cfg_set ∅ "Global" "nosep" (VBool true))
             "InteractiveShell" "prompt_in1" (VStr "In: ")).

(** A file configuration that names its one extension as a bare string. *)
Definition string_extensions_app : IPythonApp :=
  mkApp ∅ (cfg_set ∅ "Global" "extra_extension" (VStr "foo"))
        (cfg_set ∅ "Global" "extensions" (VStr "bar")) ∅.

(** The start-up of [first_fails_app] with the banner key set. *)
Definition all_fail_app : IPythonApp :=
  set_master_config
    (cfg_set (master_config first_fails_app) "Global" "display_banner" (VBool true))
    first_fails_app.

(** ** Reading a trace *)

(** The keys written by the [nosep] rule. *)
Definition separator_keys : list string :=
  ["separate_in"; "separate_out"; "separate_out2"].

Definition is_showtraceback (c : ShellCall) : bool :=
  match c with showtraceback => true | _ => false end.

(** The shell calls of a trace other than the traceback display, in order. *)
Definition action_calls (evs : list Event) : list ShellCall :=
  flat_map (fun ev => match ev with
                      | Shell c _ => if is_showtraceback c then [] else [c]
                      | _ => []
                      end) evs.

(** The numbers of failed action calls, of warnings and of tracebacks shown. *)
Definition count_failed (evs : list Event) : nat :=
  length (List.filter (fun ev => match ev with
                                 | Shell c (Some _) => negb (is_showtraceback c)
                                 | _ => false
                                 end) evs).

Definition count_warnings (evs : list Event) : nat :=
  length (List.filter (fun ev => match ev with
                                 | Log WARN _ _ => true
                                 | _ => false
                                 end) evs).

Definition count_tracebacks (evs : list Event) : nat :=
  length (List.filter (fun ev => match ev with
                                 | Shell showtraceback _ => true
                                 | _ => false
                                 end) evs).

(** What a pass may add to the trace: log records and the calls that load,
    run and report, but no banner call and no printed line. *)
Definition pass_event (ev : Event) : Prop :=
  match ev with
  | Log _ _ _ => True
  | Shell (set_display_banner _) _ | Shell show_banner _ => False
  | Shell _ _ => True
  | PrintLine => False
  end.

(** A computation that keeps the history it starts from and adds only
    events that satisfy [P]. *)
Definition emits {A} (P : Event -> Prop) (m : M A) : Prop :=
  ∀ h, ∃ evs, (m h).2 = h ++ evs ∧ Forall P evs.

(** * Properties *)

(** ** Reading a tree after a write, a deletion or a merge *)

Lemma cfg_get_empty (sec key : string) : cfg_get ∅ sec key = None.
Proof. unfold cfg_get, cfg_section. rewrite lookup_empty. simpl. apply lookup_empty. Qed.

Lemma cfg_get_set (c : Config) (sec key : string) (v : Value) (sec' key' : string) :
  cfg_get (cfg_set c sec key v) sec' key' =
  if decide (sec = sec' ∧ key = key') then Some v else cfg_get c sec' key'.
Proof.
  unfold cfg_get, cfg_set, cfg_section.
  destruct (decide (sec = sec')) as [->|Hs].
  - rewrite lookup_insert_eq. simpl.
    destruct (decide (key = key')) as [->|Hk].
    + rewrite lookup_insert_eq. rewrite decide_True; auto.
    + rewrite lookup_insert_ne by done. rewrite decide_False; [done | tauto].
  - rewrite lookup_insert_ne by done. rewrite decide_False; [done | tauto].
Qed.

Lemma cfg_get_set_eq (c : Config) (sec key : string) (v : Value) :
  cfg_get (cfg_set c sec key v) sec key = Some v.
Proof. rewrite cfg_get_set. rewrite decide_True; auto. Qed.

Lemma cfg_get_set_ne (c : Config) (sec key : string) (v : Value) (sec' key' : string) :
  (sec, key) ≠ (sec', key') ->
  cfg_get (cfg_set c sec key v) sec' key' = cfg_get c sec' key'.
Proof.
  intros Hne. rewrite cfg_get_set. rewrite decide_False; [done|].
  intros [-> ->]. by apply Hne.
Qed.

Lemma cfg_get_del (c : Config) (sec key sec' key' : string) :
  cfg_get (cfg_del c sec key) sec' key' =
  if decide (sec = sec' ∧ key = key') then None else cfg_get c sec' key'.
Proof.
  unfold cfg_get, cfg_del, cfg_section.
  destruct (decide (sec = sec')) as [->|Hs].
  - rewrite lookup_insert_eq. simpl.
    destruct (decide (key = key')) as [->|Hk].
    + rewrite lookup_delete_eq. rewrite decide_True; auto.
    + rewrite lookup_delete_ne by done. rewrite decide_False; [done | tauto].
  - rewrite lookup_insert_ne by done. rewrite decide_False; [done | tauto].
Qed.

Lemma cfg_set_set (c : Config) (sec key : string) (v w : Value) :
  cfg_set (cfg_set c sec key v) sec key w = cfg_set c sec key w.
Proof.
  unfold cfg_set, cfg_section. rewrite lookup_insert_eq. simpl.
  by rewrite insert_insert_eq, insert_insert_eq.
Qed.

Lemma hasattr_true (c : Config) (sec key : string) :
  hasattr c sec key = true <-> is_Some (cfg_get c sec key).
Proof. unfold hasattr. by rewrite bool_decide_eq_true. Qed.

Lemma hasattr_false (c : Config) (sec key : string) :
  hasattr c sec key = false <-> cfg_get c sec key = None.
Proof.
  unfold hasattr. rewrite bool_decide_eq_false.
  by rewrite eq_None_not_Some.
Qed.

Lemma cfg_get_merge (hi lo : Config) (sec key : string) :
  cfg_get (merge_config hi lo) sec key =
  match cfg_get hi sec key with
  | Some v => Some v
  | None => cfg_get lo sec key
  end.
Proof.
  unfold cfg_get, cfg_section, merge_config.
  rewrite lookup_union_with.
  destruct (hi !! sec) as [a|], (lo !! sec) as [b|]; simpl.
  - rewrite lookup_union. by destruct (a !! key), (b !! key).
  - by destruct (a !! key).
  - by rewrite lookup_empty.
  - by rewrite lookup_empty.
Qed.

Lemma cfg_get_drop_unset (c : Config) (sec key : string) :
  cfg_get (drop_unset c) sec key =
  match cfg_get c sec key with
  | Some v => if is_unset v then None else Some v
  | None => None
  end.
Proof.
  unfold cfg_get, cfg_section, drop_unset.
  rewrite lookup_fmap.
  destruct (c !! sec) as [a|]; simpl.
  - unfold drop_unset_section. rewrite lookup_omap. by destruct (a !! key).
  - by rewrite lookup_empty.
Qed.

(** ** The merge *)

Lemma cfg_get_resolve (d f c : Config) (sec key : string) :
  cfg_get (resolve d f c) sec key =
  match cfg_get c sec key with
  | Some v => if is_unset v
              then match cfg_get f sec key with
                   | Some w => Some w
                   | None => cfg_get d sec key
                   end
              else Some v
  | None => match cfg_get f sec key with
            | Some w => Some w
            | None => cfg_get d sec key
            end
  end.
Proof.
  unfold resolve.
  rewrite cfg_get_merge, cfg_get_drop_unset, cfg_get_merge.
  destruct (cfg_get c sec key) as [v|]; [|done].
  by destruct (is_unset v).
Qed.

(** C9: the resolved tree holds, at every section and key, the value of the
    source of highest precedence that has the key present, in the order
    default < file < command line; a command-line key holding the sentinel
    counts as absent and never overrides a value of the file or of the
    defaults. *)
Theorem resolve_precedence (d f c : Config) (sec key : string) :
  cfg_get (resolve d f c) sec key = by_precedence d f c sec key ∧
  (∀ v, cfg_get c sec key = Some v -> v ≠ NoConfigDefault ->
     cfg_get (resolve d f c) sec key = Some v) ∧
  (∀ w, cfg_get c sec key = None ∨ cfg_get c sec key = Some NoConfigDefault ->
     cfg_get f sec key = Some w ->
     cfg_get (resolve d f c) sec key = Some w) ∧
  (cfg_get c sec key = None ∨ cfg_get c sec key = Some NoConfigDefault ->
   cfg_get f sec key = None ->
   cfg_get (resolve d f c) sec key = cfg_get d sec key).
Proof.
  split; [unfold by_precedence; apply cfg_get_resolve |].
  rewrite cfg_get_resolve.
  split; [| split].
  - intros v -> Hv. by destruct v.
  - intros w [-> | ->] ->; done.
  - intros [-> | ->] ->; done.
Qed.

Lemma resolve_precedence_witness :
  (cfg_get colors_unset "InteractiveShell" "colors" = None ∨
   cfg_get colors_unset "InteractiveShell" "colors" = Some NoConfigDefault) ∧
  cfg_get colors_file "InteractiveShell" "colors" = Some (VStr "Linux") ∧
  cfg_get (resolve colors_default colors_file colors_unset)
          "InteractiveShell" "colors" = Some (VStr "Linux").
Proof.
  split; [right; vm_compute; reflexivity |].
  split; [vm_compute; reflexivity |].
  apply (resolve_precedence colors_default colors_file colors_unset
           "InteractiveShell" "colors").
  - right; vm_compute; reflexivity.
  - vm_compute; reflexivity.
Defined.

(** ** The derived settings of [pre_construct] *)

Lemma flag_on_classic_rule (config : Config) (key : string) :
  flag_on (classic_rule config) key = flag_on config key.
Proof.
  unfold flag_on, classic_rule.
  by rewrite !cfg_get_set_ne by (intros [=]).
Qed.

Lemma classic_rule_other (config : Config) (sec key : string) :
  ¬ (sec = "InteractiveShell" ∧ In key classic_keys) ->
  cfg_get (classic_rule config) sec key = cfg_get config sec key.
Proof.
  intros Hn. unfold classic_rule.
  repeat (rewrite cfg_get_set_ne;
          [| intros [= <- <-]; apply Hn; split; [done | simpl; tauto]]).
  done.
Qed.

(** C2: when [Global.classic] is true in the master configuration and the
    [nosep] flag is not on, [pre_construct] leaves the ten derived settings
    at their classic values (the integer 0 stored for [pprint] equals
    [False] in Python), changes no other key of the master configuration
    and leaves the raw trees alone. *)
Theorem classic_derived_settings (self : IPythonApp) :
  flag_on (master_config self) "classic" = true ->
  flag_on (master_config self) "nosep" = false ->
  let config := master_config (pre_construct self) in
  cfg_get config "InteractiveShell" "cache_size" = Some (VInt 0) ∧
  (cfg_get config "InteractiveShell" "pprint" = Some (VInt 0) ∧
   py_eq (VInt 0) (VBool false) = true) ∧
  cfg_get config "InteractiveShell" "prompt_in1" = Some (VStr ">>> ") ∧
  cfg_get config "InteractiveShell" "prompt_in2" = Some (VStr "... ") ∧
  cfg_get config "InteractiveShell" "prompt_out" = Some (VStr "") ∧
  cfg_get config "InteractiveShell" "separate_in" = Some (VStr "") ∧
  cfg_get config "InteractiveShell" "separate_out" = Some (VStr "") ∧
  cfg_get config "InteractiveShell" "separate_out2" = Some (VStr "") ∧
  cfg_get config "InteractiveShell" "colors" = Some (VStr "NoColor") ∧
  cfg_get config "InteractiveShell" "xmode" = Some (VStr "Plain") ∧
  (∀ sec key, ¬ (sec = "InteractiveShell" ∧ In key classic_keys) ->
     cfg_get config sec key = cfg_get (master_config self) sec key) ∧
  default_config (pre_construct self) = default_config self ∧
  file_config (pre_construct self) = file_config self ∧
  command_line_config (pre_construct self) = command_line_config self.
Proof.
  intros Hclassic Hnosep. unfold pre_construct. simpl.
  rewrite Hclassic, flag_on_classic_rule, Hnosep.
  repeat split; try apply classic_rule_other; try done;
    unfold classic_rule;
    rewrite ?cfg_get_set_ne by (intros [=]); apply cfg_get_set_eq.
Qed.

Lemma classic_derived_settings_witness :
  flag_on (master_config classic_app) "classic" = true ∧
  flag_on (master_config classic_app) "nosep" = false ∧
  cfg_get (master_config (pre_construct classic_app))
          "InteractiveShell" "cache_size" = Some (VInt 0).
Proof.
  split; [vm_compute; reflexivity |].
  split; [vm_compute; reflexivity |].
  apply (classic_derived_settings classic_app); vm_compute; reflexivity.
Defined.

(** C3: with both [Global.classic] and [Global.nosep] true, the three
    separators end as ['0'], not as the empty string of the classic rule:
    the [nosep] rule runs second and overwrites them. *)
Theorem nosep_after_classic (self : IPythonApp) :
  flag_on (master_config self) "classic" = true ->
  flag_on (master_config self) "nosep" = true ->
  let config := master_config (pre_construct self) in
  (cfg_get config "InteractiveShell" "separate_in" = Some (VStr "0") ∧
   cfg_get config "InteractiveShell" "separate_out" = Some (VStr "0") ∧
   cfg_get config "InteractiveShell" "separate_out2" = Some (VStr "0")) ∧
  (cfg_get config "InteractiveShell" "separate_in" ≠ Some (VStr "") ∧
   cfg_get config "InteractiveShell" "separate_out" ≠ Some (VStr "") ∧
   cfg_get config "InteractiveShell" "separate_out2" ≠ Some (VStr "")) ∧
  (* the separators are first written by the classic rule *)
  (cfg_get (classic_rule (master_config self))
           "InteractiveShell" "separate_in" = Some (VStr "") ∧
   master_config (pre_construct self) =
   nosep_rule (classic_rule (master_config self))).
Proof.
  intros Hclassic Hnosep. unfold pre_construct. simpl.
  rewrite Hclassic, flag_on_classic_rule, Hnosep.
  assert (Hsep :
    cfg_get (nosep_rule (classic_rule (master_config self)))
            "InteractiveShell" "separate_in" = Some (VStr "0") ∧
    cfg_get (nosep_rule (classic_rule (master_config self)))
            "InteractiveShell" "separate_out" = Some (VStr "0") ∧
    cfg_get (nosep_rule (classic_rule (master_config self)))
            "InteractiveShell" "separate_out2" = Some (VStr "0")).
  { unfold nosep_rule.
    repeat split; rewrite ?cfg_get_set_ne by (intros [=]); apply cfg_get_set_eq. }
  destruct Hsep as (Hin & Hout & Hout2).
  split; [by rewrite Hin, Hout, Hout2 |].
  split; [rewrite Hin, Hout, Hout2; repeat split; intros [=] |].
  split; [| done].
  unfold classic_rule.
  rewrite ?cfg_get_set_ne by (intros [=]). apply cfg_get_set_eq.
Qed.

Lemma nosep_after_classic_witness :
  flag_on (master_config classic_nosep_app) "classic" = true ∧
  flag_on (master_config classic_nosep_app) "nosep" = true ∧
  cfg_get (master_config (pre_construct classic_nosep_app))
          "InteractiveShell" "separate_out2" = Some (VStr "0").
Proof.
  split; [vm_compute; reflexivity |].
  split; [vm_compute; reflexivity |].
  apply (nosep_after_classic classic_nosep_app); vm_compute; reflexivity.
Defined.

(** ** The stages before the merge *)

(** The table has no option that writes [Global.extensions]. *)
Lemma cl_args_no_extensions (c : Config) :
  from_cl_args c -> cfg_get c "Global" "extensions" = None.
Proof.
  intros Hc. destruct (cfg_get c "Global" "extensions") as [v|] eqn:Hget; [| done].
  exfalso. assert (Hin : In ("Global", "extensions") (map dest cl_args))
    by (apply Hc; rewrite Hget; eauto).
  revert Hin. clear. vm_compute. intuition congruence.
Qed.

Lemma post_load_file_config_appends (self : IPythonApp) (extra : Value)
    (l : list Value) :
  cfg_get (command_line_config self) "Global" "extra_extension" = Some extra ->
  (cfg_get (file_config self) "Global" "extensions" = None ∧ l = [] ∨
   cfg_get (file_config self) "Global" "extensions" = Some (VList l)) ->
  post_load_file_config self =
  Ok (set_command_line_config
        (cfg_del (command_line_config self) "Global" "extra_extension")
        (set_file_config
           (cfg_set (file_config self) "Global" "extensions" (VList (l ++ [extra])))
           self)).
Proof.
  intros Hextra Hl. unfold post_load_file_config. rewrite Hextra.
  destruct Hl as [[Hnone ->] | Hsome].
  - apply hasattr_false in Hnone as Hattr. rewrite Hattr.
    rewrite cfg_get_set_eq. by rewrite cfg_set_set.
  - assert (Hattr : hasattr (file_config self) "Global" "extensions" = true)
      by (apply hasattr_true; eauto).
    rewrite Hattr, Hsome. done.
Qed.

(** C5: when the command line carries [Global.extra_extension], the stage
    after the file load appends its value to the [Global.extensions] list of
    the file configuration, starting from the empty list when the key is
    absent, and deletes [extra_extension] from the command-line
    configuration; nothing else changes.  With no [extensions] key in the
    file configuration (and none on the command line, which has no option
    for it), the resolved list holds exactly that one value. *)
Theorem post_load_file_config_extra_extension (self : IPythonApp)
    (extra : Value) (l : list Value) :
  cfg_get (command_line_config self) "Global" "extra_extension" = Some extra ->
  (cfg_get (file_config self) "Global" "extensions" = None ∧ l = [] ∨
   cfg_get (file_config self) "Global" "extensions" = Some (VList l)) ->
  ∃ self',
    post_load_file_config self = Ok self' ∧
    cfg_get (file_config self') "Global" "extensions" = Some (VList (l ++ [extra])) ∧
    cfg_get (command_line_config self') "Global" "extra_extension" = None ∧
    (∀ sec key, (sec, key) ≠ ("Global", "extensions") ->
       cfg_get (file_config self') sec key = cfg_get (file_config self) sec key) ∧
    (∀ sec key, (sec, key) ≠ ("Global", "extra_extension") ->
       cfg_get (command_line_config self') sec key =
       cfg_get (command_line_config self) sec key) ∧
    default_config self' = default_config self ∧
    master_config self' = master_config self ∧
    (cfg_get (file_config self) "Global" "extensions" = None ->
     cfg_get (command_line_config self) "Global" "extensions" = None ->
     cfg_get (master_config (merge_configs self')) "Global" "extensions" =
     Some (VList [extra])).
Proof.
  intros Hextra Hl. eexists. split.
  { by apply post_load_file_config_appends. }
  simpl. split; [apply cfg_get_set_eq |].
  split; [rewrite cfg_get_del; by rewrite decide_True |].
  split; [intros sec key Hne; by apply cfg_get_set_ne |].
  split.
  { intros sec key Hne. rewrite cfg_get_del. rewrite decide_False; [done |].
    intros [<- <-]. by apply Hne. }
  split; [done |]. split; [done |].
  intros Hnone Hcl. rewrite cfg_get_resolve.
  rewrite cfg_get_del, decide_False by (intros [_ [=]]).
  rewrite Hcl, cfg_get_set_eq.
  destruct Hl as [[_ ->] | Hsome]; [done | congruence].
Qed.

Lemma post_load_file_config_extra_extension_witness :
  cfg_get (command_line_config foo_app) "Global" "extra_extension" =
    Some (VStr "foo") ∧
  cfg_get (file_config foo_app) "Global" "extensions" = None ∧
  cfg_get (command_line_config foo_app) "Global" "extensions" = None ∧
  ∃ self',
    post_load_file_config foo_app = Ok self' ∧
    cfg_get (master_config (merge_configs self')) "Global" "extensions" =
    Some (VList [VStr "foo"]).
Proof.
  split; [vm_compute; reflexivity |].
  split; [vm_compute; reflexivity |].
  split; [vm_compute; reflexivity |].
  destruct (post_load_file_config_extra_extension foo_app (VStr "foo") [])
    as (self' & Hrun & _ & _ & _ & _ & _ & _ & Hresolved).
  - vm_compute; reflexivity.
  - left; split; [vm_compute; reflexivity | reflexivity].
  - exists self'. split; [exact Hrun |].
    apply Hresolved; vm_compute; reflexivity.
Defined.

(** C4: when [Global.quick] is true on the command line, the file-load stage
    does not call the loader of the base class and leaves an empty file
    configuration, whatever that loader would have produced; every key of
    the master configuration merged afterwards then comes from the defaults
    or from the command line (the [extensions] list built from
    [extra_extension] included), none from a configuration file. *)
Theorem load_file_config_quick (super_load_file_config : IPythonApp -> IPythonApp)
    (self : IPythonApp) :
  flag_on (command_line_config self) "quick" = true ->
  let loaded := load_file_config super_load_file_config self in
  file_config loaded = ∅ ∧
  (∀ sec key, cfg_get (file_config loaded) sec key = None) ∧
  default_config loaded = default_config self ∧
  command_line_config loaded = command_line_config self ∧
  ∃ self',
    post_load_file_config loaded = Ok self' ∧
    ∀ sec key v,
      cfg_get (master_config (merge_configs self')) sec key = Some v ->
      cfg_get (default_config self) sec key = Some v ∨
      cfg_get (command_line_config self) sec key = Some v ∨
      (sec = "Global" ∧ key = "extensions" ∧
       ∃ extra,
         cfg_get (command_line_config self) "Global" "extra_extension" = Some extra ∧
         v = VList [extra]).
Proof.
  intros Hquick. unfold load_file_config. rewrite Hquick. simpl.
  split; [done |]. split; [apply cfg_get_empty |]. split; [done |]. split; [done |].
  destruct (cfg_get (command_line_config self) "Global" "extra_extension")
    as [extra|] eqn:Hextra.
  - eexists. split.
    { apply (post_load_file_config_appends _ extra []); simpl; auto. }
    simpl. intros sec key v. rewrite cfg_get_resolve.
    rewrite cfg_get_del, cfg_get_set, cfg_get_empty.
    destruct (decide ("Global" = sec ∧ "extra_extension" = key)) as [[<- <-]|Hne].
    + rewrite decide_False by (intros [_ [=]]). auto.
    + destruct (cfg_get (command_line_config self) sec key) as [w|] eqn:Hcl.
      * destruct (is_unset w) eqn:Hw; [| intros [= <-]; auto].
        case_decide as Hd; [| auto].
        destruct Hd as [<- <-]. intros [= <-]. right. right. eauto.
      * case_decide as Hd; [| auto].
        destruct Hd as [<- <-]. intros [= <-]. right. right. eauto.
  - exists (set_file_config ∅ self). split.
    { unfold post_load_file_config. simpl. by rewrite Hextra. }
    simpl. intros sec key v. rewrite cfg_get_resolve, cfg_get_empty.
    destruct (cfg_get (command_line_config self) sec key) as [w|].
    + destruct (is_unset w); [auto | intros [= <-]; auto].
    + auto.
Qed.

Lemma load_file_config_quick_witness :
  flag_on (command_line_config quick_app) "quick" = true ∧
  file_config (load_file_config (set_file_config colors_file) quick_app) = ∅.
Proof.
  split; [vm_compute; reflexivity |].
  apply (load_file_config_quick (set_file_config colors_file) quick_app).
  vm_compute; reflexivity.
Defined.

(** ** The three passes *)

Section GuardedLoop.

Variable env : Env.
Hypothesis Hdiag : diag_ok env.
Variables (info warn : string) (mk : Value -> ShellCall).

Lemma guarded_run (x : Value) (h : Trace) :
  guarded env info warn mk x h =
  (Ok tt, h ++ action_events env info warn mk x h).
Proof.
  unfold guarded, try_except, bind, log, call, action_events.
  destruct (shell_raises env (h ++ [Log INFO info (Some x)]) (mk x)) as [e|].
  - rewrite Hdiag. by rewrite <- !app_assoc.
  - by rewrite <- !app_assoc.
Qed.

Lemma for_guarded_run (items : list Value) (h : Trace) :
  for_ items (guarded env info warn mk) h =
  (Ok tt, h ++ loop_events env info warn mk items h).
Proof.
  revert h. induction items as [|x rest IH]; intros h; simpl.
  - unfold ret. by rewrite app_nil_r.
  - unfold bind. rewrite guarded_run, IH. by rewrite <- app_assoc.
Qed.

(** Every action of the list is attempted, whatever happened to the
    actions before it. *)
Lemma loop_attempts_all (items : list Value) (h : Trace) (x : Value) :
  In x items ->
  In (Log INFO info (Some x)) (loop_events env info warn mk items h) ∧
  ∃ outcome, In (Shell (mk x) outcome) (loop_events env info warn mk items h).
Proof.
  revert h. induction items as [|y rest IH]; intros h; simpl; [done |].
  intros [-> | Hin].
  - unfold action_events.
    destruct (shell_raises env _ (mk x)) as [e|]; simpl; eauto 6.
  - destruct (IH (h ++ action_events env info warn mk y h) Hin) as [Hlog [o Ho]].
    split; [apply in_or_app; by right |].
    exists o. apply in_or_app. by right.
Qed.

(** A failing action is followed at once by the warning that names it and
    by the traceback. *)
Lemma loop_failure_reported (items : list Value) (h : Trace) (x : Value) (e : Exn) :
  In (Shell (mk x) (Some e)) (loop_events env info warn mk items h) ->
  (∀ y, mk y = mk x -> y = x) ->
  ∃ before after,
    loop_events env info warn mk items h =
    before ++ [Shell (mk x) (Some e); Log WARN warn (Some x);
               Shell showtraceback None] ++ after.
Proof.
  intros Hin Hinj. revert h Hin.
  induction items as [|y rest IH]; intros h; simpl; [done |].
  intros Hin. apply in_app_or in Hin as [Hin | Hin].
  - unfold action_events in *.
    destruct (shell_raises env _ (mk y)) as [e'|]; simpl in Hin.
    + destruct Hin as [[=] | [[= Hy ->] | [[=] | [[= Hs] | []]]]].
      apply Hinj in Hy as ->.
      exists [Log INFO info (Some x)], (loop_events env info warn mk rest
        (h ++ [Log INFO info (Some x); Shell (mk x) (Some e);
               Log WARN warn (Some x); Shell showtraceback None])).
      done.
    + destruct Hin as [[=] | [[=] | []]].
  - destruct (IH _ Hin) as (before & after & ->).
    exists (action_events env info warn mk y h ++ before), after.
    by rewrite <- app_assoc.
Qed.

End GuardedLoop.

(** The outer [try]/[except] of a pass: with a handler that returns, the
    pass returns, whatever its body does. *)
Lemma try_except_returns (body handler : M unit) :
  (∀ h, ∃ h', handler h = (Ok tt, h')) ->
  ∀ h, ∃ h', try_except body handler h = (Ok tt, h').
Proof.
  intros Hh h. unfold try_except.
  destruct (body h) as [[[]|e] h1]; eauto.
Qed.

Lemma unknown_error_handler (env : Env) (msg : string) (h : Trace) :
  diag_ok env ->
  (log WARN msg None >> call env showtraceback) h =
  (Ok tt, h ++ [Log WARN msg None; Shell showtraceback None]).
Proof.
  intros Hdiag. unfold bind, log, call. rewrite Hdiag.
  by rewrite <- app_assoc.
Qed.

Lemma load_extensions_returns (env : Env) (self : IPythonApp) (h : Trace) :
  diag_ok env -> ∃ h', _load_extensions env self h = (Ok tt, h').
Proof.
  intros Hdiag. apply try_except_returns. intros h0.
  rewrite unknown_error_handler by done. eauto.
Qed.

Lemma run_exec_lines_returns (env : Env) (self : IPythonApp) (h : Trace) :
  diag_ok env -> ∃ h', _run_exec_lines env self h = (Ok tt, h').
Proof.
  intros Hdiag. apply try_except_returns. intros h0.
  rewrite unknown_error_handler by done. eauto.
Qed.

Lemma run_exec_files_returns (env : Env) (self : IPythonApp) (h : Trace) :
  diag_ok env -> ∃ h', _run_exec_files env self h = (Ok tt, h').
Proof.
  intros Hdiag. apply try_except_returns. intros h0.
  rewrite unknown_error_handler by done. eauto.
Qed.

(** The extensions pass over a list: every entry is attempted inside its own
    guard, and the pass returns normally. *)
Lemma load_extensions_run (env : Env) (self : IPythonApp) (items : list Value)
    (h : Trace) :
  diag_ok env ->
  cfg_get (master_config self) "Global" "extensions" = Some (VList items) ->
  _load_extensions env self h =
  (Ok tt,
   h ++ Log DEBUG "Loading IPython extensions..." None ::
     loop_events env "Loading IPython extension: %s"
       "Error in loading extension: %s" load_extension items
       (h ++ [Log DEBUG "Loading IPython extensions..." None])).
Proof.
  intros Hdiag Hget. unfold _load_extensions.
  assert (Hattr : hasattr (master_config self) "Global" "extensions" = true)
    by (apply hasattr_true; eauto).
  rewrite Hattr. unfold global_attr. rewrite Hget.
  unfold try_except, bind at 1, log at 1, bind at 1, ret, for_in. simpl.
  change (for_ items _) with
    (for_ items (guarded env "Loading IPython extension: %s"
                   "Error in loading extension: %s" load_extension)).
  rewrite for_guarded_run by done.
  by rewrite <- app_assoc.
Qed.

(** The statements pass over a list, likewise. *)
Lemma run_exec_lines_run (env : Env) (self : IPythonApp) (items : list Value)
    (h : Trace) :
  diag_ok env ->
  cfg_get (master_config self) "Global" "exec_lines" = Some (VList items) ->
  _run_exec_lines env self h =
  (Ok tt,
   h ++ Log DEBUG "Running code from Global.exec_lines..." None ::
     loop_events env "Running code in user namespace: %s"
       "Error in executing line in user namespace: %s" runlines items
       (h ++ [Log DEBUG "Running code from Global.exec_lines..." None])).
Proof.
  intros Hdiag Hget. unfold _run_exec_lines.
  assert (Hattr : hasattr (master_config self) "Global" "exec_lines" = true)
    by (apply hasattr_true; eauto).
  rewrite Hattr. unfold global_attr. rewrite Hget.
  unfold try_except, bind at 1, log at 1, bind at 1, ret, for_in. simpl.
  change (for_ items _) with
    (for_ items (guarded env "Running code in user namespace: %s"
                   "Error in executing line in user namespace: %s" runlines)).
  rewrite for_guarded_run by done.
  by rewrite <- app_assoc.
Qed.

(** C8: with the extensions list ['a', 'b', 'c'], where loading 'b' raises
    and loading 'c' does not, the pass returns normally, 'c' is loaded to
    completion after the failure of 'b', and exactly one warning names 'b';
    it is the warning of the extensions pass and comes right after the
    failed call, followed by the traceback. *)
Theorem load_extensions_abc (env : Env) (self : IPythonApp) (h : Trace) (e : Exn) :
  diag_ok env ->
  cfg_get (master_config self) "Global" "extensions" =
    Some (VList [VStr "a"; VStr "b"; VStr "c"]) ->
  (∀ h', shell_raises env h' (load_extension (VStr "b")) = Some e) ->
  (∀ h', shell_raises env h' (load_extension (VStr "c")) = None) ->
  ∃ before,
    _load_extensions env self h =
    (Ok tt,
     h ++ before ++
       [Log INFO "Loading IPython extension: %s" (Some (VStr "b"));
        Shell (load_extension (VStr "b")) (Some e);
        Log WARN "Error in loading extension: %s" (Some (VStr "b"));
        Shell showtraceback None;
        Log INFO "Loading IPython extension: %s" (Some (VStr "c"));
        Shell (load_extension (VStr "c")) None]) ∧
    length (List.filter (warns_about "b") before) = 0%nat ∧
    length (List.filter (warns_about "b")
              (before ++
               [Log INFO "Loading IPython extension: %s" (Some (VStr "b"));
                Shell (load_extension (VStr "b")) (Some e);
                Log WARN "Error in loading extension: %s" (Some (VStr "b"));
                Shell showtraceback None;
                Log INFO "Loading IPython extension: %s" (Some (VStr "c"));
                Shell (load_extension (VStr "c")) None])) = 1%nat.
Proof.
  intros Hdiag Hget Hb Hc.
  rewrite (load_extensions_run env self _ h Hdiag Hget).
  simpl. unfold action_events. rewrite Hb, Hc.
  destruct (shell_raises env _ (load_extension (VStr "a"))) as [ea|].
  - exists [Log DEBUG "Loading IPython extensions..." None;
            Log INFO "Loading IPython extension: %s" (Some (VStr "a"));
            Shell (load_extension (VStr "a")) (Some ea);
            Log WARN "Error in loading extension: %s" (Some (VStr "a"));
            Shell showtraceback None].
    repeat split; reflexivity.
  - exists [Log DEBUG "Loading IPython extensions..." None;
            Log INFO "Loading IPython extension: %s" (Some (VStr "a"));
            Shell (load_extension (VStr "a")) None].
    repeat split; reflexivity.
Qed.

Lemma load_extensions_abc_witness :
  diag_ok b_fails_env ∧
  cfg_get (master_config abc_app) "Global" "extensions" =
    Some (VList [VStr "a"; VStr "b"; VStr "c"]) ∧
  (∀ h', shell_raises b_fails_env h' (load_extension (VStr "b")) =
         Some (OtherError "ImportError")) ∧
  (∀ h', shell_raises b_fails_env h' (load_extension (VStr "c")) = None) ∧
  ∃ before,
    length (List.filter (warns_about "b")
              (before ++
               [Log INFO "Loading IPython extension: %s" (Some (VStr "b"));
                Shell (load_extension (VStr "b")) (Some (OtherError "ImportError"));
                Log WARN "Error in loading extension: %s" (Some (VStr "b"));
                Shell showtraceback None;
                Log INFO "Loading IPython extension: %s" (Some (VStr "c"));
                Shell (load_extension (VStr "c")) None])) = 1%nat.
Proof.
  split; [intros h'; reflexivity |].
  split; [vm_compute; reflexivity |].
  split; [intros h'; reflexivity |].
  split; [intros h'; reflexivity |].
  destruct (load_extensions_abc b_fails_env abc_app [] (OtherError "ImportError"))
    as (before & _ & _ & Hone).
  - intros h'; reflexivity.
  - vm_compute; reflexivity.
  - intros h'; reflexivity.
  - intros h'; reflexivity.
  - exists before. exact Hone.
Defined.

(** ** The files pass *)

Lemma exec_file_dispatch (env : Env) (fname : Value) (path : string) (h : Trace) :
  runs_cleanly env fname path ->
  exec_file env fname h = (Ok tt, h ++ spec_dispatch path).
Proof.
  intros Hclean. unfold exec_file, bind, call_filefind, call_isfile, spec_dispatch.
  destruct (Hclean h) as (-> & -> & _ & _).
  destruct (endswith path ".py").
  - unfold log, call.
    destruct (Hclean (h ++ [Log INFO "Running file in user namespace: %s"
                                (Some (VStr path))])) as (_ & _ & -> & _).
    by rewrite <- app_assoc.
  - destruct (endswith path ".ipy").
    + unfold log, call.
      destruct (Hclean (h ++ [Log INFO "Running file in user namespace: %s"
                                  (Some (VStr path))])) as (_ & _ & _ & ->).
      by rewrite <- app_assoc.
    + done.
Qed.

Lemma for_exec_file_dispatch (env : Env) (loc : Value -> string)
    (files : list Value) (h : Trace) :
  (∀ f, In f files -> runs_cleanly env f (loc f)) ->
  for_ files (exec_file env) h =
  (Ok tt, h ++ concat (map (fun f => spec_dispatch (loc f)) files)).
Proof.
  revert h. induction files as [|f rest IH]; intros h Hall; simpl.
  - unfold ret. by rewrite app_nil_r.
  - unfold bind. rewrite (exec_file_dispatch env f (loc f)) by (apply Hall; by left).
    rewrite IH by (intros g Hg; apply Hall; by right).
    by rewrite <- app_assoc.
Qed.

(** C6: in the files pass every listed name is looked up with [filefind] on
    the path [['.', ipythondir]] and the file found is dispatched on its
    extension: [.py] to [safe_execfile], [.ipy] to [safe_execfile_ipy], and
    anything else to a single warning and nothing more.  When the listed
    files are found and their runs return, the pass does exactly this for
    each of them in order; in every case the pass returns normally. *)
Theorem run_exec_files_dispatch (env : Env) (self : IPythonApp)
    (files : list Value) (loc : Value -> string) (h : Trace) :
  diag_ok env ->
  cfg_get (master_config self) "Global" "exec_files" = Some (VList files) ->
  (∀ f, In f files -> runs_cleanly env f (loc f)) ->
  _run_exec_files env self h =
  (Ok tt,
   h ++ Log DEBUG "Running files in Global.exec_files..." None ::
     concat (map (fun f => spec_dispatch (loc f)) files)) ∧
  (∀ h0, ∃ h1, _run_exec_files env self h0 = (Ok tt, h1)).
Proof.
  intros Hdiag Hget Hall. split.
  - unfold _run_exec_files.
    assert (Hattr : hasattr (master_config self) "Global" "exec_files" = true)
      by (apply hasattr_true; eauto).
    rewrite Hattr. unfold global_attr. rewrite Hget.
    unfold try_except, bind at 1, log at 1, bind at 1, ret, for_in. simpl.
    rewrite (for_exec_file_dispatch env loc) by done.
    by rewrite <- app_assoc.
  - intros h0. by apply run_exec_files_returns.
Qed.

Lemma run_exec_files_dispatch_witness :
  diag_ok all_found_env ∧
  cfg_get (master_config three_files_app) "Global" "exec_files" =
    Some (VList [VStr "a.py"; VStr "b.ipy"; VStr "c.txt"]) ∧
  (∀ f, In f [VStr "a.py"; VStr "b.ipy"; VStr "c.txt"] ->
        runs_cleanly all_found_env f (str_of f)) ∧
  _run_exec_files all_found_env three_files_app [] =
  (Ok tt,
   [Log DEBUG "Running files in Global.exec_files..." None;
    Log INFO "Running file in user namespace: %s" (Some (VStr "a.py"));
    Shell (safe_execfile "a.py") None;
    Log INFO "Running file in user namespace: %s" (Some (VStr "b.ipy"));
    Shell (safe_execfile_ipy "b.ipy") None;
    Log WARN "File does not have a .py or .ipy extension: <%s>"
        (Some (VStr "c.txt"))]).
Proof.
  assert (Hfiles : ∀ f, In f [VStr "a.py"; VStr "b.ipy"; VStr "c.txt"] ->
                        runs_cleanly all_found_env f (str_of f)).
  { intros f [<- | [<- | [<- | []]]] h'; repeat split; reflexivity. }
  split; [intros h'; reflexivity |].
  split; [vm_compute; reflexivity |].
  split; [exact Hfiles |].
  apply (run_exec_files_dispatch all_found_env three_files_app
           [VStr "a.py"; VStr "b.ipy"; VStr "c.txt"] str_of []).
  - intros h'; reflexivity.
  - vm_compute; reflexivity.
  - exact Hfiles.
Defined.





Example run_exec_files_directory :
  _run_exec_files directory_env
    (with_exec_files [VStr "a.py"; VStr "docs"; VStr "b.py"]) [] =
  (Ok tt,
   [Log DEBUG "Running files in Global.exec_files..." None;
    Log INFO "Running file in user namespace: %s" (Some (VStr "a.py"));
    Shell (safe_execfile "a.py") None;
    Log INFO "Running file in user namespace: %s" (Some (VStr "b.py"));
    Shell (safe_execfile "b.py") None]).
Proof. vm_compute. reflexivity. Qed.

(** ** The outer guard of a pass and the sequence of passes *)

Lemma post_construct_passes (env : Env) (self : IPythonApp) (h0 h1 : Trace) :
  before_passes env self h0 = (Ok tt, h1) ->
  post_construct env self h0 =
  (_load_extensions env self >> _run_exec_lines env self >>
   _run_exec_files env self) h1.
Proof.
  unfold post_construct, before_passes, bind.
  destruct (call env (set_display_banner false) h0) as [[[]|e0] ha]; [| done].
  destruct (global_attr self "display_banner" ha) as [[v|e1] hb]; [| done].
  destruct ((if truthy v then call env show_banner else ret tt) hb)
    as [[[]|e2] hc]; [| done].
  destruct ((if log_level env <=? logging_INFO then print_line else ret tt) hc)
    as [[[]|e3] hd]; [| done].
  by intros [= ->].
Qed.

Lemma not_iterable_run (env : Env) (self : IPythonApp) (key : string) (v : Value)
    (body : Value -> M unit) (dbg msg : string) (h : Trace) :
  diag_ok env ->
  cfg_get (master_config self) "Global" key = Some v ->
  py_iter v = None ->
  try_except
    (if hasattr (master_config self) "Global" key then
       log DEBUG dbg None >>
       let! items := global_attr self key in
       for_in items body
     else ret tt)
    (log WARN msg None >> call env showtraceback) h =
  (Ok tt, h ++ [Log DEBUG dbg None; Log WARN msg None; Shell showtraceback None]).
Proof.
  intros Hdiag Hget Hiter.
  assert (Hattr : hasattr (master_config self) "Global" key = true)
    by (apply hasattr_true; eauto).
  rewrite Hattr. unfold global_attr. rewrite Hget.
  unfold try_except, bind at 1, log at 1, bind at 1, ret, for_in.
  rewrite Hiter. unfold raise.
  rewrite unknown_error_handler by done.
  by rewrite <- app_assoc.
Qed.

(** C7: every pass sits in an outer guard.  When the value under the key of
    a pass cannot be iterated, the pass logs its own "Unknown error" warning,
    shows the traceback, runs none of its actions and returns normally; and
    whatever the extensions pass did, [post_construct] goes on to run the
    statements pass and then the files pass, each of which returns
    normally. *)
Theorem outer_guard (env : Env) (self : IPythonApp) :
  diag_ok env ->
  (∀ v h,
     cfg_get (master_config self) "Global" "extensions" = Some v ->
     py_iter v = None ->
     _load_extensions env self h =
     (Ok tt, h ++ [Log DEBUG "Loading IPython extensions..." None;
                   Log WARN "Unknown error in loading extensions:" None;
                   Shell showtraceback None])) ∧
  (∀ v h,
     cfg_get (master_config self) "Global" "exec_lines" = Some v ->
     py_iter v = None ->
     _run_exec_lines env self h =
     (Ok tt, h ++ [Log DEBUG "Running code from Global.exec_lines..." None;
                   Log WARN "Unknown error in handling Global.exec_lines:" None;
                   Shell showtraceback None])) ∧
  (∀ v h,
     cfg_get (master_config self) "Global" "exec_files" = Some v ->
     py_iter v = None ->
     _run_exec_files env self h =
     (Ok tt, h ++ [Log DEBUG "Running files in Global.exec_files..." None;
                   Log WARN "Unknown error in handling Global.exec_files:" None;
                   Shell showtraceback None])) ∧
  (∀ h0 h1,
     before_passes env self h0 = (Ok tt, h1) ->
     ∃ h2 h3 h4,
       _load_extensions env self h1 = (Ok tt, h2) ∧
       _run_exec_lines env self h2 = (Ok tt, h3) ∧
       _run_exec_files env self h3 = (Ok tt, h4) ∧
       post_construct env self h0 = (Ok tt, h4)).
Proof.
  intros Hdiag. repeat split.
  - intros v h Hget Hiter. by apply (not_iterable_run env self "extensions" v).
  - intros v h Hget Hiter. by apply (not_iterable_run env self "exec_lines" v).
  - intros v h Hget Hiter. by apply (not_iterable_run env self "exec_files" v).
  - intros h0 h1 Hbefore.
    destruct (load_extensions_returns env self h1 Hdiag) as [h2 H2].
    destruct (run_exec_lines_returns env self h2 Hdiag) as [h3 H3].
    destruct (run_exec_files_returns env self h3 Hdiag) as [h4 H4].
    exists h2, h3, h4. repeat split; try done.
    rewrite (post_construct_passes env self h0 h1 Hbefore).
    unfold bind. by rewrite H2, H3.
Qed.

Lemma outer_guard_witness :
  diag_ok all_found_env ∧
  cfg_get (master_config bad_extensions_app) "Global" "extensions" =
    Some (VInt 5) ∧
  py_iter (VInt 5) = None ∧
  _load_extensions all_found_env bad_extensions_app [] =
  (Ok tt, [Log DEBUG "Loading IPython extensions..." None;
           Log WARN "Unknown error in loading extensions:" None;
           Shell showtraceback None]).
Proof.
  split; [intros h; reflexivity |].
  split; [vm_compute; reflexivity |].
  split; [reflexivity |].
  destruct (outer_guard all_found_env bad_extensions_app) as (Hext & _).
  - intros h; reflexivity.
  - apply (Hext (VInt 5) []); [vm_compute; reflexivity | reflexivity].
Defined.

Example post_construct_bad_extensions :
  post_construct all_found_env bad_extensions_app [] =
  (Ok tt,
   [Shell (set_display_banner false) None;
    Shell show_banner None;
    Log DEBUG "Loading IPython extensions..." None;
    Log WARN "Unknown error in loading extensions:" None;
    Shell showtraceback None;
    Log DEBUG "Running code from Global.exec_lines..." None;
    Log INFO "Running code in user namespace: %s" (Some (VStr "x = 1"));
    Shell (runlines (VStr "x = 1")) None;
    Log DEBUG "Running files in Global.exec_files..." None;
    Log INFO "Running file in user namespace: %s" (Some (VStr "a.py"));
    Shell (safe_execfile "a.py") None]).
Proof. vm_compute. reflexivity. Qed.

(** ** Failure of one action *)

(** In the extensions pass a failure stays with its action: the pass returns
    normally, every entry of the list is attempted, and a failed load is
    followed by the warning that names it and by the traceback. *)
Lemma load_extensions_isolated (env : Env) (self : IPythonApp)
    (items : list Value) (h : Trace) :
  diag_ok env ->
  cfg_get (master_config self) "Global" "extensions" = Some (VList items) ->
  ∃ evs,
    _load_extensions env self h = (Ok tt, h ++ evs) ∧
    (∀ x, In x items -> ∃ outcome, In (Shell (load_extension x) outcome) evs) ∧
    (∀ x e, In (Shell (load_extension x) (Some e)) evs ->
       ∃ before after,
         evs = before ++
               [Shell (load_extension x) (Some e);
                Log WARN "Error in loading extension: %s" (Some x);
                Shell showtraceback None] ++ after).
Proof.
  intros Hdiag Hget. eexists. split; [by apply load_extensions_run |].
  split.
  - intros x Hx.
    destruct (loop_attempts_all env "Loading IPython extension: %s"
                "Error in loading extension: %s" load_extension items
                (h ++ [Log DEBUG "Loading IPython extensions..." None]) x Hx)
      as [_ [o Ho]].
    exists o. by right.
  - intros x e [[=] | Hin].
    destruct (loop_failure_reported env _ _ load_extension items _ x e Hin)
      as (before & after & Heq); [by intros y [=] |].
    exists (Log DEBUG "Loading IPython extensions..." None :: before), after.
    by rewrite Heq.
Qed.

(** The statements pass does the same. *)
Lemma run_exec_lines_isolated (env : Env) (self : IPythonApp)
    (items : list Value) (h : Trace) :
  diag_ok env ->
  cfg_get (master_config self) "Global" "exec_lines" = Some (VList items) ->
  ∃ evs,
    _run_exec_lines env self h = (Ok tt, h ++ evs) ∧
    (∀ x, In x items -> ∃ outcome, In (Shell (runlines x) outcome) evs) ∧
    (∀ x e, In (Shell (runlines x) (Some e)) evs ->
       ∃ before after,
         evs = before ++
               [Shell (runlines x) (Some e);
                Log WARN "Error in executing line in user namespace: %s" (Some x);
                Shell showtraceback None] ++ after).
Proof.
  intros Hdiag Hget. eexists. split; [by apply run_exec_lines_run |].
  split.
  - intros x Hx.
    destruct (loop_attempts_all env "Running code in user namespace: %s"
                "Error in executing line in user namespace: %s" runlines items
                (h ++ [Log DEBUG "Running code from Global.exec_lines..." None]) x Hx)
      as [_ [o Ho]].
    exists o. by right.
  - intros x e [[=] | Hin].
    destruct (loop_failure_reported env _ _ runlines items _ x e Hin)
      as (before & after & Heq); [by intros y [=] |].
    exists (Log DEBUG "Running code from Global.exec_lines..." None :: before), after.
    by rewrite Heq.
Qed.

(** C1: the files pass has no guard around one file.  With two files listed
    and the first one missing, [filefind] raises, the outer guard logs its
    "Unknown error" warning, which names no file, and the second file is
    never run; the statements pass, given the same two entries and a failure
    of the first, warns about it by name and still runs the second. *)
Theorem run_exec_files_not_isolated :
  _run_exec_files first_fails_env first_fails_app [] =
  (Ok tt,
   [Log DEBUG "Running files in Global.exec_files..." None;
    Log WARN "Unknown error in handling Global.exec_files:" None;
    Shell showtraceback None]) ∧
  _run_exec_lines first_fails_env first_fails_app [] =
  (Ok tt,
   [Log DEBUG "Running code from Global.exec_lines..." None;
    Log INFO "Running code in user namespace: %s" (Some (VStr "first.py"));
    Shell (runlines (VStr "first.py")) (Some (OtherError "Exception"));
    Log WARN "Error in executing line in user namespace: %s" (Some (VStr "first.py"));
    Shell showtraceback None;
    Log INFO "Running code in user namespace: %s" (Some (VStr "second.py"));
    Shell (runlines (VStr "second.py")) None]).
Proof. split; vm_compute; reflexivity. Qed.

(** * Further properties of the stages and passes *)

(** ** [pre_construct] beyond the classic case *)

Lemma flag_on_nosep_rule (config : Config) (key : string) :
  flag_on (nosep_rule config) key = flag_on config key.
Proof.
  unfold flag_on, nosep_rule.
  by rewrite !cfg_get_set_ne by (intros [=]).
Qed.

Lemma nosep_rule_other (config : Config) (sec key : string) :
  ¬ (sec = "InteractiveShell" ∧ In key separator_keys) ->
  cfg_get (nosep_rule config) sec key = cfg_get config sec key.
Proof.
  intros Hn. unfold nosep_rule.
  repeat (rewrite cfg_get_set_ne;
          [| intros [= <- <-]; apply Hn; split; [done | simpl; tauto]]).
  done.
Qed.

Lemma separator_keys_classic (key : string) :
  In key separator_keys -> In key classic_keys.
Proof. simpl. tauto. Qed.

(** X1: whatever the flags, [pre_construct] writes to no section other than
    [InteractiveShell] and to none of its keys outside the ten derived ones. *)
Theorem pre_construct_frame (self : IPythonApp) (sec key : string) :
  ¬ (sec = "InteractiveShell" ∧ In key classic_keys) ->
  cfg_get (master_config (pre_construct self)) sec key =
  cfg_get (master_config self) sec key.
Proof.
  intros Hn. unfold pre_construct. simpl.
  assert (Hsep : ¬ (sec = "InteractiveShell" ∧ In key separator_keys)).
  { intros [Hs Hk]. apply Hn. split; [done | by apply separator_keys_classic]. }
  destruct (flag_on (master_config self) "classic").
  - destruct (flag_on (classic_rule (master_config self)) "nosep").
    + by rewrite nosep_rule_other, classic_rule_other.
    + by rewrite classic_rule_other.
  - destruct (flag_on (master_config self) "nosep").
    + by rewrite nosep_rule_other.
    + done.
Qed.

Lemma pre_construct_frame_witness :
  ¬ ("Global" = "InteractiveShell" ∧ In "classic" classic_keys) ∧
  cfg_get (master_config (pre_construct classic_nosep_app)) "Global" "classic" =
  cfg_get (master_config classic_nosep_app) "Global" "classic".
Proof.
  split; [intros [[=] _] |].
  apply (pre_construct_frame classic_nosep_app "Global" "classic").
  intros [[=] _].
Defined.

(** X2: with [nosep] on and [classic] not, the three separators become ['0']
    and no other key changes: prompts, colours and the rest stay as merged. *)
Theorem pre_construct_nosep_only (self : IPythonApp) :
  flag_on (master_config self) "classic" = false ->
  flag_on (master_config self) "nosep" = true ->
  let config := master_config (pre_construct self) in
  cfg_get config "InteractiveShell" "separate_in" = Some (VStr "0") ∧
  cfg_get config "InteractiveShell" "separate_out" = Some (VStr "0") ∧
  cfg_get config "InteractiveShell" "separate_out2" = Some (VStr "0") ∧
  (∀ sec key, ¬ (sec = "InteractiveShell" ∧ In key separator_keys) ->
     cfg_get config sec key = cfg_get (master_config self) sec key).
Proof.
  intros Hclassic Hnosep. unfold pre_construct. simpl.
  rewrite Hclassic, Hnosep.
  repeat split; try apply nosep_rule_other;
    unfold nosep_rule;
    rewrite ?cfg_get_set_ne by (intros [=]); apply cfg_get_set_eq.
Qed.

Lemma pre_construct_nosep_only_witness :
  flag_on (master_config nosep_app) "classic" = false ∧
  flag_on (master_config nosep_app) "nosep" = true ∧
  cfg_get (master_config (pre_construct nosep_app))
          "InteractiveShell" "separate_in" = Some (VStr "0").
Proof.
  split; [vm_compute; reflexivity |].
  split; [vm_compute; reflexivity |].
  apply (pre_construct_nosep_only nosep_app); vm_compute; reflexivity.
Defined.

(** With neither flag on (absent or false), [pre_construct] changes
    nothing at all. *)
Lemma pre_construct_no_flags (self : IPythonApp) :
  flag_on (master_config self) "classic" = false ->
  flag_on (master_config self) "nosep" = false ->
  pre_construct self = self.
Proof.
  intros Hclassic Hnosep. unfold pre_construct. simpl.
  rewrite Hclassic, Hnosep. by destruct self.
Qed.

Lemma cfg_section_insert (c : Config) (sec : string) (m : Section_) :
  cfg_section (<[sec := m]> c) sec = m.
Proof. unfold cfg_section. by rewrite lookup_insert_eq. Qed.

Lemma cfg_set_overlay (c : Config) (sec key : string) (v : Value) :
  cfg_set c sec key v = <[sec := {[key := v]} ∪ cfg_section c sec]> c.
Proof.
  unfold cfg_set. by rewrite (insert_union_singleton_l (cfg_section c sec)).
Qed.

Lemma cfg_set_overlay_more (c : Config) (sec key : string) (v : Value)
    (g m : Section_) :
  cfg_set (<[sec := g ∪ m]> c) sec key v = <[sec := ({[key := v]} ∪ g) ∪ m]> c.
Proof.
  unfold cfg_set. rewrite cfg_section_insert, insert_insert_eq.
  by rewrite (insert_union_singleton_l (g ∪ m)), (assoc_L (∪)).
Qed.

Section Overlay.

(** A rule that lays a fixed map [g] over one section. *)
Variable rule : Config -> Config.
Variable sec : string.
Variable g : Section_.
Hypothesis Hrule : ∀ c, rule c = <[sec := g ∪ cfg_section c sec]> c.

Lemma overlay_idempotent (c : Config) : rule (rule c) = rule c.
Proof.
  rewrite (Hrule (rule c)), (Hrule c).
  rewrite cfg_section_insert, insert_insert_eq.
  by rewrite (assoc_L (∪)), (idemp_L (∪)).
Qed.

End Overlay.

Lemma classic_rule_overlay :
  ∃ g : Section_, ∀ c,
    classic_rule c = <["InteractiveShell" := g ∪ cfg_section c "InteractiveShell"]> c.
Proof.
  eexists. intros c. unfold classic_rule.
  rewrite (cfg_set_overlay c). rewrite !cfg_set_overlay_more. reflexivity.
Qed.

Lemma nosep_rule_overlay :
  ∃ g : Section_, ∀ c,
    nosep_rule c = <["InteractiveShell" := g ∪ cfg_section c "InteractiveShell"]> c.
Proof.
  eexists. intros c. unfold nosep_rule.
  rewrite (cfg_set_overlay c). rewrite !cfg_set_overlay_more. reflexivity.
Qed.

Lemma nosep_classic_overlay :
  ∃ g : Section_, ∀ c,
    nosep_rule (classic_rule c) =
    <["InteractiveShell" := g ∪ cfg_section c "InteractiveShell"]> c.
Proof.
  destruct classic_rule_overlay as [gc Hc], nosep_rule_overlay as [gn Hn].
  exists (gn ∪ gc). intros c.
  rewrite Hn, Hc, cfg_section_insert, insert_insert_eq.
  by rewrite (assoc_L (∪)).
Qed.

(** X3: running [pre_construct] a second time changes nothing: the rules do not
    touch the flags they test, and each writes constants. *)
Theorem pre_construct_idempotent (self : IPythonApp) :
  pre_construct (pre_construct self) = pre_construct self.
Proof.
  unfold pre_construct. simpl. unfold set_master_config. simpl. f_equal.
  destruct (flag_on (master_config self) "classic") eqn:Hclassic.
  - rewrite flag_on_classic_rule.
    destruct (flag_on (master_config self) "nosep") eqn:Hnosep.
    + rewrite flag_on_nosep_rule, flag_on_classic_rule, Hclassic.
      rewrite flag_on_classic_rule, flag_on_nosep_rule, flag_on_classic_rule, Hnosep.
      destruct nosep_classic_overlay as [g Hg].
      apply (overlay_idempotent (fun c => nosep_rule (classic_rule c)) _ g Hg).
    + rewrite flag_on_classic_rule, Hclassic.
      rewrite flag_on_classic_rule, flag_on_classic_rule, Hnosep.
      destruct classic_rule_overlay as [g Hg].
      apply (overlay_idempotent classic_rule _ g Hg).
  - destruct (flag_on (master_config self) "nosep") eqn:Hnosep.
    + rewrite flag_on_nosep_rule, Hclassic, flag_on_nosep_rule, Hnosep.
      destruct nosep_rule_overlay as [g Hg].
      apply (overlay_idempotent nosep_rule _ g Hg).
    + by rewrite Hclassic, Hnosep.
Qed.

(** ** The raw-configuration stages *)

(** X4: once [post_load_file_config] has run, running it again changes nothing:
    the first run deleted [extra_extension], so the extension is appended
    exactly once. *)
Theorem post_load_file_config_once (self self' : IPythonApp) :
  post_load_file_config self = Ok self' ->
  post_load_file_config self' = Ok self'.
Proof.
  unfold post_load_file_config at 1.
  destruct (cfg_get (command_line_config self) "Global" "extra_extension")
    as [extra|] eqn:Hextra.
  - destruct (cfg_get _ "Global" "extensions") as [[| | |l|]|]; try done.
    intros [= <-]. unfold post_load_file_config. simpl.
    rewrite cfg_get_del. by rewrite decide_True.
  - intros [= <-]. unfold post_load_file_config. by rewrite Hextra.
Qed.

Lemma post_load_file_config_once_witness :
  ∃ self',
    post_load_file_config foo_app = Ok self' ∧
    post_load_file_config self' = Ok self'.
Proof.
  eexists. split; [vm_compute; reflexivity |].
  apply (post_load_file_config_once foo_app). vm_compute; reflexivity.
Defined.

(** X5: when the file configuration holds something other than a list under
    [Global.extensions], the [append] of [post_load_file_config] raises
    [AttributeError]. *)
Theorem post_load_file_config_not_a_list (self : IPythonApp) (extra v : Value) :
  cfg_get (command_line_config self) "Global" "extra_extension" = Some extra ->
  cfg_get (file_config self) "Global" "extensions" = Some v ->
  (∀ l, v ≠ VList l) ->
  post_load_file_config self = Raise AttributeError.
Proof.
  intros Hextra Hget Hv. unfold post_load_file_config. rewrite Hextra.
  assert (Hattr : hasattr (file_config self) "Global" "extensions" = true)
    by (apply hasattr_true; eauto).
  rewrite Hattr, Hget. destruct v; try done. by destruct (Hv l).
Qed.

Lemma post_load_file_config_not_a_list_witness :
  cfg_get (command_line_config string_extensions_app) "Global" "extra_extension" =
    Some (VStr "foo") ∧
  cfg_get (file_config string_extensions_app) "Global" "extensions" =
    Some (VStr "bar") ∧
  post_load_file_config string_extensions_app = Raise AttributeError.
Proof.
  split; [vm_compute; reflexivity |].
  split; [vm_compute; reflexivity |].
  apply (post_load_file_config_not_a_list string_extensions_app
           (VStr "foo") (VStr "bar")).
  - vm_compute; reflexivity.
  - vm_compute; reflexivity.
  - intros l [=].
Defined.

(** X6: [post_load_command_line_config] leaves no [Global.threaded_shell] key on
    the command line, keeps every other key and the other trees, and issues
    the deprecation warning exactly when the key was there. *)
Theorem post_load_command_line_config_removes (self : IPythonApp) :
  let self' := (post_load_command_line_config self).1 in
  let warned := (post_load_command_line_config self).2 in
  cfg_get (command_line_config self') "Global" "threaded_shell" = None ∧
  (∀ sec key, (sec, key) ≠ ("Global", "threaded_shell") ->
     cfg_get (command_line_config self') sec key =
     cfg_get (command_line_config self) sec key) ∧
  default_config self' = default_config self ∧
  file_config self' = file_config self ∧
  master_config self' = master_config self ∧
  warned =
    match cfg_get (command_line_config self) "Global" "threaded_shell" with
    | Some _ => [DeprecationWarning threaded_shell_msg]
    | None => []
    end.
Proof.
  unfold post_load_command_line_config.
  destruct (cfg_get (command_line_config self) "Global" "threaded_shell")
    as [v|] eqn:Hget.
  - assert (Hattr :
      hasattr (command_line_config self) "Global" "threaded_shell" = true)
      by (apply hasattr_true; eauto).
    rewrite Hattr. simpl. split; [rewrite cfg_get_del; by rewrite decide_True |].
    split; [| done].
    intros sec key Hne. rewrite cfg_get_del. rewrite decide_False; [done |].
    intros [<- <-]. by apply Hne.
  - apply hasattr_false in Hget as Hattr. rewrite Hattr. simpl.
    split; [done |]. split; done.
Qed.

(** X7: a second run of [post_load_command_line_config] warns no more and
    changes nothing. *)
Theorem post_load_command_line_config_once (self : IPythonApp) :
  post_load_command_line_config (post_load_command_line_config self).1 =
  ((post_load_command_line_config self).1, []).
Proof.
  unfold post_load_command_line_config at 2 3.
  destruct (hasattr (command_line_config self) "Global" "threaded_shell") eqn:Hattr.
  - simpl. unfold post_load_command_line_config. simpl.
    assert (Hgone :
      hasattr (cfg_del (command_line_config self) "Global" "threaded_shell")
              "Global" "threaded_shell" = false).
    { apply hasattr_false. rewrite cfg_get_del. by rewrite decide_True. }
    by rewrite Hgone.
  - simpl. unfold post_load_command_line_config. by rewrite Hattr.
Qed.

(** ** The passes at their edges *)

(** X8: a pass whose key is absent from [Global] does nothing: no log record,
    no shell call, a normal return. *)
Theorem passes_absent_key (env : Env) (self : IPythonApp) (h : Trace) :
  (cfg_get (master_config self) "Global" "extensions" = None ->
   _load_extensions env self h = (Ok tt, h)) ∧
  (cfg_get (master_config self) "Global" "exec_lines" = None ->
   _run_exec_lines env self h = (Ok tt, h)) ∧
  (cfg_get (master_config self) "Global" "exec_files" = None ->
   _run_exec_files env self h = (Ok tt, h)).
Proof.
  repeat split; intros Hnone; apply hasattr_false in Hnone.
  - unfold _load_extensions. by rewrite Hnone.
  - unfold _run_exec_lines. by rewrite Hnone.
  - unfold _run_exec_files. by rewrite Hnone.
Qed.

(** X9: a pass whose key holds a string instead of a list runs one action per
    character: it behaves exactly as on the list of the one-character
    strings. *)
Theorem passes_string_value (env : Env) (self self' : IPythonApp) (s : string)
    (h : Trace) :
  (cfg_get (master_config self) "Global" "extensions" = Some (VStr s) ->
   cfg_get (master_config self') "Global" "extensions" = Some (VList (chars s)) ->
   _load_extensions env self h = _load_extensions env self' h) ∧
  (cfg_get (master_config self) "Global" "exec_lines" = Some (VStr s) ->
   cfg_get (master_config self') "Global" "exec_lines" = Some (VList (chars s)) ->
   _run_exec_lines env self h = _run_exec_lines env self' h) ∧
  (cfg_get (master_config self) "Global" "exec_files" = Some (VStr s) ->
   cfg_get (master_config self') "Global" "exec_files" = Some (VList (chars s)) ->
   _run_exec_files env self h = _run_exec_files env self' h).
Proof.
  repeat split; intros Hget Hget';
    assert (Hattr : is_Some (Some (VStr s))) by eauto;
    assert (Hattr' : is_Some (Some (VList (chars s)))) by eauto;
    rewrite <- Hget in Hattr; rewrite <- Hget' in Hattr';
    apply hasattr_true in Hattr; apply hasattr_true in Hattr'.
  - unfold _load_extensions, global_attr. by rewrite Hattr, Hattr', Hget, Hget'.
  - unfold _run_exec_lines, global_attr. by rewrite Hattr, Hattr', Hget, Hget'.
  - unfold _run_exec_files, global_attr. by rewrite Hattr, Hattr', Hget, Hget'.
Qed.

Example run_exec_lines_string :
  _run_exec_lines all_found_env
    (mkApp ∅ ∅ ∅ (cfg_set ∅ "Global" "exec_lines" (VStr "x=1"))) [] =
  (Ok tt,
   [Log DEBUG "Running code from Global.exec_lines..." None;
    Log INFO "Running code in user namespace: %s" (Some (VStr "x"));
    Shell (runlines (VStr "x")) None;
    Log INFO "Running code in user namespace: %s" (Some (VStr "="));
    Shell (runlines (VStr "=")) None;
    Log INFO "Running code in user namespace: %s" (Some (VStr "1"));
    Shell (runlines (VStr "1")) None]).
Proof. vm_compute. reflexivity. Qed.

(** ** Accounting for the guarded passes *)

Section LoopAccounting.

Variable env : Env.
Variables (info warn : string) (mk : Value -> ShellCall).
Hypothesis Hmk : ∀ x, is_showtraceback (mk x) = false.

Lemma action_events_accounting (x : Value) (h : Trace) :
  let evs := action_events env info warn mk x h in
  action_calls evs = [mk x] ∧
  count_warnings evs = count_failed evs ∧
  count_tracebacks evs = count_failed evs ∧
  (count_failed evs <= 1)%nat.
Proof.
  unfold action_events, action_calls, count_warnings, count_failed,
    count_tracebacks.
  destruct (shell_raises env _ (mk x)) as [e|]; simpl; rewrite Hmk; simpl;
    destruct (mk x) eqn:Hc; simpl; try (by auto);
    by specialize (Hmk x); rewrite Hc in Hmk.
Qed.

Lemma loop_events_accounting (items : list Value) (h : Trace) :
  let evs := loop_events env info warn mk items h in
  action_calls evs = map mk items ∧
  count_warnings evs = count_failed evs ∧
  count_tracebacks evs = count_failed evs ∧
  (count_failed evs <= length items)%nat.
Proof.
  revert h. induction items as [|x rest IH]; intros h; simpl; [done |].
  destruct (action_events_accounting x h) as (Hc & Hw & Ht & Hf).
  destruct (IH (h ++ action_events env info warn mk x h)) as (Hc' & Hw' & Ht' & Hf').
  unfold action_calls, count_warnings, count_failed, count_tracebacks in *.
  rewrite flat_map_app, !List.filter_app, !length_app.
  rewrite Hc, Hc', Hw, Hw', Ht, Ht'. repeat split; try done. lia.
Qed.

End LoopAccounting.

(** X10: the extensions pass over a list calls [load_extension] once for each
    entry, in the order of the list, whatever fails; it logs one warning and
    shows one traceback for each failed load, and nothing else is warned
    about. *)
Theorem load_extensions_accounting (env : Env) (self : IPythonApp)
    (items : list Value) (h : Trace) :
  diag_ok env ->
  cfg_get (master_config self) "Global" "extensions" = Some (VList items) ->
  ∃ evs,
    _load_extensions env self h = (Ok tt, h ++ evs) ∧
    action_calls evs = map load_extension items ∧
    count_warnings evs = count_failed evs ∧
    count_tracebacks evs = count_failed evs ∧
    (count_failed evs <= length items)%nat.
Proof.
  intros Hdiag Hget. eexists. split; [by apply load_extensions_run |].
  apply (loop_events_accounting env "Loading IPython extension: %s"
           "Error in loading extension: %s" load_extension); done.
Qed.

Lemma load_extensions_accounting_witness :
  diag_ok b_fails_env ∧
  cfg_get (master_config abc_app) "Global" "extensions" =
    Some (VList [VStr "a"; VStr "b"; VStr "c"]) ∧
  ∃ evs,
    _load_extensions b_fails_env abc_app [] = (Ok tt, [] ++ evs) ∧
    action_calls evs = map load_extension [VStr "a"; VStr "b"; VStr "c"].
Proof.
  split; [intros h'; reflexivity |].
  split; [vm_compute; reflexivity |].
  destruct (load_extensions_accounting b_fails_env abc_app
              [VStr "a"; VStr "b"; VStr "c"] [])
    as (evs & Hrun & Hcalls & _).
  - intros h'; reflexivity.
  - vm_compute; reflexivity.
  - exists evs. split; [exact Hrun | exact Hcalls].
Defined.

(** X11: the statements pass over a list calls [runlines] once for each entry, in
    order, with one warning and one traceback for each failed statement. *)
Theorem run_exec_lines_accounting (env : Env) (self : IPythonApp)
    (items : list Value) (h : Trace) :
  diag_ok env ->
  cfg_get (master_config self) "Global" "exec_lines" = Some (VList items) ->
  ∃ evs,
    _run_exec_lines env self h = (Ok tt, h ++ evs) ∧
    action_calls evs = map runlines items ∧
    count_warnings evs = count_failed evs ∧
    count_tracebacks evs = count_failed evs ∧
    (count_failed evs <= length items)%nat.
Proof.
  intros Hdiag Hget. eexists. split; [by apply run_exec_lines_run |].
  apply (loop_events_accounting env "Running code in user namespace: %s"
           "Error in executing line in user namespace: %s" runlines); done.
Qed.

Lemma run_exec_lines_accounting_witness :
  diag_ok first_fails_env ∧
  cfg_get (master_config first_fails_app) "Global" "exec_lines" =
    Some (VList [VStr "first.py"; VStr "second.py"]) ∧
  ∃ evs,
    _run_exec_lines first_fails_env first_fails_app [] = (Ok tt, [] ++ evs) ∧
    action_calls evs = map runlines [VStr "first.py"; VStr "second.py"].
Proof.
  split; [intros h'; reflexivity |].
  split; [vm_compute; reflexivity |].
  destruct (run_exec_lines_accounting first_fails_env first_fails_app
              [VStr "first.py"; VStr "second.py"] [])
    as (evs & Hrun & Hcalls & _).
  - intros h'; reflexivity.
  - vm_compute; reflexivity.
  - exists evs. split; [exact Hrun | exact Hcalls].
Defined.

(** ** The files pass when a file fails *)

Lemma for_raise {A} (body : A -> M unit) (before after : list A) (x : A)
    (h h1 h2 : Trace) (e : Exn) :
  for_ before body h = (Ok tt, h1) ->
  body x h1 = (Raise e, h2) ->
  for_ (before ++ x :: after) body h = (Raise e, h2).
Proof.
  revert h. induction before as [|y before IH]; intros h; simpl.
  - unfold ret, bind. intros [= ->] Hx. by rewrite Hx.
  - unfold bind. destruct (body y h) as [[[]|e0] h0]; [| done].
    intros Hrest Hx. by apply IH.
Qed.

(** X12: in the files pass the first file whose turn raises ends the pass: the
    files before it have been handled, the outer guard logs its warning and
    shows the traceback, the pass returns normally, and the files after it
    are never looked at (the result does not depend on them). *)
Theorem run_exec_files_stops (env : Env) (self : IPythonApp)
    (before after : list Value) (fname : Value) (h h1 h2 : Trace) (e : Exn) :
  diag_ok env ->
  cfg_get (master_config self) "Global" "exec_files" =
    Some (VList (before ++ fname :: after)) ->
  for_ before (exec_file env)
       (h ++ [Log DEBUG "Running files in Global.exec_files..." None]) =
    (Ok tt, h1) ->
  exec_file env fname h1 = (Raise e, h2) ->
  _run_exec_files env self h =
  (Ok tt, h2 ++ [Log WARN "Unknown error in handling Global.exec_files:" None;
                 Shell showtraceback None]).
Proof.
  intros Hdiag Hget Hbefore Hfail. unfold _run_exec_files.
  assert (Hattr : hasattr (master_config self) "Global" "exec_files" = true)
    by (apply hasattr_true; eauto).
  rewrite Hattr. unfold global_attr. rewrite Hget.
  unfold try_except, bind at 1, log at 1, bind at 1, ret, for_in. simpl.
  rewrite (for_raise (exec_file env) before after fname _ h1 h2 e Hbefore Hfail).
  by apply unknown_error_handler.
Qed.

Lemma run_exec_files_stops_witness :
  diag_ok first_fails_env ∧
  cfg_get (master_config first_fails_app) "Global" "exec_files" =
    Some (VList ([] ++ VStr "first.py" :: [VStr "second.py"])) ∧
  _run_exec_files first_fails_env first_fails_app [] =
  (Ok tt,
   [Log DEBUG "Running files in Global.exec_files..." None] ++
   [Log WARN "Unknown error in handling Global.exec_files:" None;
    Shell showtraceback None]).
Proof.
  split; [intros h'; reflexivity |].
  split; [vm_compute; reflexivity |].
  apply (run_exec_files_stops first_fails_env first_fails_app
           [] [VStr "second.py"] (VStr "first.py") []
           [Log DEBUG "Running files in Global.exec_files..." None]
           [Log DEBUG "Running files in Global.exec_files..." None] IOError).
  - intros h'; reflexivity.
  - vm_compute; reflexivity.
  - reflexivity.
  - reflexivity.
Defined.

(** X13: the turn of one file raises only when [filefind] raises (nothing has
    been logged for the file then) or when the shell call that runs a found
    regular file raises; a name that is not a regular file and a file with
    another extension never raise. *)
Theorem exec_file_raises_only (env : Env) (fname : Value) (h h' : Trace) (e : Exn) :
  exec_file env fname h = (Raise e, h') ->
  (filefind env h fname ["."; ipythondir env] = Raise e ∧ h' = h) ∨
  ∃ path,
    filefind env h fname ["."; ipythondir env] = Ok path ∧
    isfile env h path = true ∧
    ((endswith path ".py" = true ∧
      h' = h ++ [Log INFO "Running file in user namespace: %s" (Some (VStr path));
                 Shell (safe_execfile path) (Some e)]) ∨
     (endswith path ".py" = false ∧ endswith path ".ipy" = true ∧
      h' = h ++ [Log INFO "Running file in user namespace: %s" (Some (VStr path));
                 Shell (safe_execfile_ipy path) (Some e)])).
Proof.
  unfold exec_file, bind, call_filefind, call_isfile.
  destruct (filefind env h fname ["."; ipythondir env]) as [path|e0] eqn:Hfind.
  - destruct (isfile env h path) eqn:Hfile; [| done].
    destruct (endswith path ".py") eqn:Hpy.
    + unfold log, call.
      destruct (shell_raises env _ (safe_execfile path)) as [e1|]; [| done].
      intros [= <- <-]. right. exists path. rewrite <- app_assoc. auto.
    + destruct (endswith path ".ipy") eqn:Hipy; [| done].
      unfold log, call.
      destruct (shell_raises env _ (safe_execfile_ipy path)) as [e1|]; [| done].
      intros [= <- <-]. right. exists path. rewrite <- app_assoc. auto 6.
  - intros [= <- <-]. by left.
Qed.

Lemma exec_file_raises_only_witness :
  exec_file first_fails_env (VStr "first.py") [] = (Raise IOError, []) ∧
  ((filefind first_fails_env [] (VStr "first.py")
      ["."; ipythondir first_fails_env] = Raise IOError ∧ [] = ([] : Trace)) ∨
   ∃ path,
     filefind first_fails_env [] (VStr "first.py")
       ["."; ipythondir first_fails_env] = Ok path ∧
     isfile first_fails_env [] path = true ∧
     ((endswith path ".py" = true ∧
       [] = [] ++ [Log INFO "Running file in user namespace: %s" (Some (VStr path));
                   Shell (safe_execfile path) (Some IOError)]) ∨
      (endswith path ".py" = false ∧ endswith path ".ipy" = true ∧
       [] = [] ++ [Log INFO "Running file in user namespace: %s" (Some (VStr path));
                   Shell (safe_execfile_ipy path) (Some IOError)]))).
Proof.
  split; [reflexivity |].
  apply (exec_file_raises_only first_fails_env (VStr "first.py") [] [] IOError).
  reflexivity.
Defined.

(** ** The two extensions do not overlap *)

Lemma substring_prefix_idem (m : nat) (s : string) :
  String.substring 0 m (String.substring 0 m s) = String.substring 0 m s.
Proof.
  revert s. induction m as [|m IH]; intros s.
  - by destruct s.
  - destruct s as [|c s]; simpl; [done |]. by rewrite IH.
Qed.

Lemma substring_shift (n m : nat) (s : string) :
  String.substring (S n) m s =
  String.substring 1 m (String.substring n (S m) s).
Proof.
  revert n. induction s as [|c s IH]; intros n.
  - by destruct n.
  - destruct n as [|n].
    + simpl. by rewrite substring_prefix_idem.
    + change (String.substring (S (S n)) m (String c s))
        with (String.substring (S n) m s).
      change (String.substring (S n) (S m) (String c s))
        with (String.substring n (S m) s).
      apply IH.
Qed.

Lemma endswith_ipy_not_py (path : string) :
  endswith path ".ipy" = true -> endswith path ".py" = false.
Proof.
  unfold endswith. intros Hipy.
  apply andb_true_iff in Hipy as [Hlen Hsub].
  apply Nat.leb_le in Hlen. apply String.eqb_eq in Hsub. simpl in Hlen, Hsub.
  apply andb_false_iff. right. apply String.eqb_neq. simpl String.length.
  replace (String.length path - 3)%nat with (S (String.length path - 4)) by lia.
  rewrite substring_shift, Hsub. by intros [=].
Qed.

(** X14: a found regular file whose path ends in [.ipy] is run with
    [safe_execfile_ipy] and never with [safe_execfile], although the [.py]
    test comes first. *)
Theorem exec_file_ipy (env : Env) (fname : Value) (path : string) (h : Trace) :
  filefind env h fname ["."; ipythondir env] = Ok path ->
  isfile env h path = true ->
  endswith path ".ipy" = true ->
  exec_file env fname h =
  let h1 := h ++ [Log INFO "Running file in user namespace: %s" (Some (VStr path))] in
  match shell_raises env h1 (safe_execfile_ipy path) with
  | None => (Ok tt, h1 ++ [Shell (safe_execfile_ipy path) None])
  | Some e => (Raise e, h1 ++ [Shell (safe_execfile_ipy path) (Some e)])
  end.
Proof.
  intros Hfind Hfile Hipy.
  unfold exec_file, bind, call_filefind, call_isfile.
  rewrite Hfind, Hfile, (endswith_ipy_not_py path Hipy), Hipy.
  reflexivity.
Qed.

Lemma exec_file_ipy_witness :
  filefind all_found_env [] (VStr "notes.py.ipy") ["."; ipythondir all_found_env] =
    Ok "notes.py.ipy" ∧
  isfile all_found_env [] "notes.py.ipy" = true ∧
  endswith "notes.py.ipy" ".ipy" = true ∧
  exec_file all_found_env (VStr "notes.py.ipy") [] =
  (Ok tt,
   [Log INFO "Running file in user namespace: %s" (Some (VStr "notes.py.ipy"))] ++
   [Shell (safe_execfile_ipy "notes.py.ipy") None]).
Proof.
  split; [reflexivity |]. split; [reflexivity |]. split; [reflexivity |].
  apply (exec_file_ipy all_found_env (VStr "notes.py.ipy") "notes.py.ipy" []);
    reflexivity.
Defined.

(** ** [post_construct] as a whole *)

(** X16: without a [Global.display_banner] key the read in [post_construct]
    raises [AttributeError] after the banner of the shell was switched off:
    no banner is shown and none of the three passes runs. *)
Theorem post_construct_no_banner_key (env : Env) (self : IPythonApp) (h : Trace) :
  shell_raises env h (set_display_banner false) = None ->
  cfg_get (master_config self) "Global" "display_banner" = None ->
  post_construct env self h =
  (Raise AttributeError, h ++ [Shell (set_display_banner false) None]).
Proof.
  intros Hset Hnone. unfold post_construct, bind, call, global_attr.
  by rewrite Hset, Hnone.
Qed.

Lemma post_construct_no_banner_key_witness :
  shell_raises first_fails_env [] (set_display_banner false) = None ∧
  cfg_get (master_config first_fails_app) "Global" "display_banner" = None ∧
  post_construct first_fails_env first_fails_app [] =
  (Raise AttributeError, [] ++ [Shell (set_display_banner false) None]).
Proof.
  split; [reflexivity |]. split; [vm_compute; reflexivity |].
  apply (post_construct_no_banner_key first_fails_env first_fails_app []).
  - reflexivity.
  - vm_compute; reflexivity.
Defined.

(** ** Defaults and the command-line table *)

(** X18: [create_default_config] stores [display_banner = True] and the log level
    of the application in the defaults and keeps every other key the base
    class put there; merged with any file and command-line trees, the banner
    key is therefore always present, so the read of it in [post_construct]
    cannot fail. *)
Theorem create_default_config_banner
    (super_create_default_config : IPythonApp -> IPythonApp)
    (self_log_level : Z) (self : IPythonApp) :
  let self' := create_default_config super_create_default_config self_log_level self in
  cfg_get (default_config self') "Global" "display_banner" = Some (VBool true) ∧
  cfg_get (default_config self') "Global" "log_level" = Some (VInt self_log_level) ∧
  (∀ sec key,
     (sec, key) ≠ ("Global", "display_banner") ->
     (sec, key) ≠ ("Global", "log_level") ->
     cfg_get (default_config self') sec key =
     cfg_get (default_config (super_create_default_config self)) sec key) ∧
  (∀ f c, is_Some (cfg_get (resolve (default_config self') f c)
                           "Global" "display_banner")).
Proof.
  unfold create_default_config. simpl.
  assert (Hbanner : ∀ d,
    cfg_get (cfg_set (cfg_set d "Global" "display_banner" (VBool true))
                     "Global" "log_level" (VInt self_log_level))
            "Global" "display_banner" = Some (VBool true)).
  { intros d. rewrite cfg_get_set_ne by (intros [=]). apply cfg_get_set_eq. }
  split; [apply Hbanner |]. split; [apply cfg_get_set_eq |]. split.
  - intros sec key Hb Hl. by rewrite !cfg_get_set_ne.
  - intros f c. rewrite cfg_get_resolve, Hbanner.
    destruct (cfg_get c "Global" "display_banner") as [v|].
    + destruct (is_unset v); [| eauto].
      destruct (cfg_get f "Global" "display_banner"); eauto.
    + destruct (cfg_get f "Global" "display_banner"); eauto.
Qed.

(** X19: no flag name occurs twice in [cl_args], in one row or in two. *)
Theorem cl_args_flags_distinct :
  NoDup (concat (map (fun row : list string * string * string => row.1.1) cl_args)).
Proof. apply (bool_decide_unpack _). vm_compute. exact I. Qed.



(** ** What the passes add to the trace *)

Section Emits.

Variable P : Event -> Prop.

Lemma emits_ret {A} (a : A) : emits P (ret a).
Proof. intros h. exists []. by rewrite app_nil_r. Qed.

Lemma emits_raise {A} (e : Exn) : emits P (raise (A := A) e).
Proof. intros h. exists []. by rewrite app_nil_r. Qed.

Lemma emits_log (lvl : Level) (fmt : string) (arg : option Value) :
  P (Log lvl fmt arg) -> emits P (log lvl fmt arg).
Proof. intros HP h. exists [Log lvl fmt arg]. split; [done | by constructor]. Qed.

Lemma emits_call (env : Env) (c : ShellCall) :
  (∀ o, P (Shell c o)) -> emits P (call env c).
Proof.
  intros HP h. unfold call.
  destruct (shell_raises env h c) as [e|]; eexists; (split; [done |]);
    by constructor.
Qed.

Lemma emits_bind {A B} (m : M A) (k : A -> M B) :
  emits P m -> (∀ a, emits P (k a)) -> emits P (bind m k).
Proof.
  intros Hm Hk h. unfold bind. destruct (Hm h) as (evs & Heq & HP).
  destruct (m h) as [[a|e] h1]; simpl in Heq; subst h1.
  - destruct (Hk a (h ++ evs)) as (evs' & Heq' & HP').
    exists (evs ++ evs'). rewrite Heq', app_assoc. split; [done |].
    by apply Forall_app.
  - by exists evs.
Qed.

Lemma emits_try {A} (body handler : M A) :
  emits P body -> emits P handler -> emits P (try_except body handler).
Proof.
  intros Hb Hh h. unfold try_except. destruct (Hb h) as (evs & Heq & HP).
  destruct (body h) as [[a|e] h1]; simpl in Heq; subst h1.
  - by exists evs.
  - destruct (Hh (h ++ evs)) as (evs' & Heq' & HP').
    exists (evs ++ evs'). rewrite Heq', app_assoc. split; [done |].
    by apply Forall_app.
Qed.

Lemma emits_for {A} (items : list A) (body : A -> M unit) :
  (∀ x, emits P (body x)) -> emits P (for_ items body).
Proof.
  intros Hbody. induction items as [|x rest IH]; simpl.
  - apply emits_ret.
  - apply emits_bind; [apply Hbody | intros _; apply IH].
Qed.

Lemma emits_for_in (v : Value) (body : Value -> M unit) :
  (∀ x, emits P (body x)) -> emits P (for_in v body).
Proof.
  intros Hbody. unfold for_in.
  destruct (py_iter v); [by apply emits_for | apply emits_raise].
Qed.

End Emits.

Lemma emits_global_attr (P : Event -> Prop) (self : IPythonApp) (key : string) :
  emits P (global_attr self key).
Proof.
  unfold global_attr.
  destruct (cfg_get _ _ _); [apply emits_ret | apply emits_raise].
Qed.

Lemma emits_exec_file (env : Env) (fname : Value) :
  emits pass_event (exec_file env fname).
Proof.
  unfold exec_file. apply emits_bind.
  { intros h. exists []. unfold call_filefind. simpl. by rewrite app_nil_r. }
  intros path. apply emits_bind.
  { intros h. exists []. unfold call_isfile. simpl. by rewrite app_nil_r. }
  intros [|]; [| apply emits_ret].
  destruct (endswith path ".py").
  - apply emits_bind; [by apply emits_log | intros _; by apply emits_call].
  - destruct (endswith path ".ipy").
    + apply emits_bind; [by apply emits_log | intros _; by apply emits_call].
    + by apply emits_log.
Qed.

Lemma emits_handler (env : Env) (msg : string) (arg : option Value) :
  emits pass_event (log WARN msg arg >> call env showtraceback).
Proof.
  apply emits_bind; [by apply emits_log | intros _; by apply emits_call].
Qed.

Lemma emits_load_extensions (env : Env) (self : IPythonApp) :
  emits pass_event (_load_extensions env self).
Proof.
  unfold _load_extensions. apply emits_try; [| apply emits_handler].
  destruct (hasattr _ _ _); [| apply emits_ret].
  apply emits_bind; [by apply emits_log | intros _].
  apply emits_bind; [apply emits_global_attr | intros v].
  apply emits_for_in. intros x. apply emits_try; [| apply emits_handler].
  apply emits_bind; [by apply emits_log | intros _; by apply emits_call].
Qed.

Lemma emits_run_exec_lines (env : Env) (self : IPythonApp) :
  emits pass_event (_run_exec_lines env self).
Proof.
  unfold _run_exec_lines. apply emits_try; [| apply emits_handler].
  destruct (hasattr _ _ _); [| apply emits_ret].
  apply emits_bind; [by apply emits_log | intros _].
  apply emits_bind; [apply emits_global_attr | intros v].
  apply emits_for_in. intros x. apply emits_try; [| apply emits_handler].
  apply emits_bind; [by apply emits_log | intros _; by apply emits_call].
Qed.

Lemma emits_run_exec_files (env : Env) (self : IPythonApp) :
  emits pass_event (_run_exec_files env self).
Proof.
  unfold _run_exec_files. apply emits_try; [| apply emits_handler].
  destruct (hasattr _ _ _); [| apply emits_ret].
  apply emits_bind; [by apply emits_log | intros _].
  apply emits_bind; [apply emits_global_attr | intros v].
  apply emits_for_in. apply emits_exec_file.
Qed.

(** X17: each pass keeps the history before it and adds only log records and
    calls that load, run or report: no pass shows the banner or prints, and
    none can undo what an earlier pass did.  This holds for every value
    under the key and every behaviour of the shell. *)
Theorem passes_emit (env : Env) (self : IPythonApp) :
  emits pass_event (_load_extensions env self) ∧
  emits pass_event (_run_exec_lines env self) ∧
  emits pass_event (_run_exec_files env self).
Proof.
  split; [apply emits_load_extensions |].
  split; [apply emits_run_exec_lines | apply emits_run_exec_files].
Qed.

(** X15: when the banner key is present and the banner and traceback calls of the
    shell return, [post_construct] returns normally whatever the
    extensions, statements and files do.  It first switches the banner of
    the shell off, then shows the banner itself if the key is true, then
    prints a line if the log level is at most [INFO]; everything the three
    passes do comes after that, and the banner is not shown again. *)
Theorem post_construct_banner_first (env : Env) (self : IPythonApp) (v : Value)
    (h : Trace) :
  diag_ok env ->
  (∀ h', shell_raises env h' (set_display_banner false) = None) ->
  (∀ h', shell_raises env h' show_banner = None) ->
  cfg_get (master_config self) "Global" "display_banner" = Some v ->
  ∃ evs,
    post_construct env self h =
    (Ok tt,
     h ++ [Shell (set_display_banner false) None] ++
       (if truthy v then [Shell show_banner None] else []) ++
       (if log_level env <=? logging_INFO then [PrintLine] else []) ++ evs) ∧
    Forall pass_event evs.
Proof.
  intros Hdiag Hset Hshow Hget.
  assert (Hbefore : before_passes env self h =
    (Ok tt, h ++ [Shell (set_display_banner false) None] ++
       (if truthy v then [Shell show_banner None] else []) ++
       (if log_level env <=? logging_INFO then [PrintLine] else []))).
  { unfold before_passes, bind, call, global_attr. rewrite Hset, Hget.
    unfold ret, print_line. destruct (truthy v).
    - rewrite Hshow.
      destruct (log_level env <=? logging_INFO); simpl;
        rewrite <- ?app_assoc; reflexivity.
    - destruct (log_level env <=? logging_INFO); simpl;
        rewrite <- ?app_assoc; reflexivity. }
  set (h1 := h ++ [Shell (set_display_banner false) None] ++
       (if truthy v then [Shell show_banner None] else []) ++
       (if log_level env <=? logging_INFO then [PrintLine] else [])) in *.
  destruct (load_extensions_returns env self h1 Hdiag) as [h2 H2].
  destruct (run_exec_lines_returns env self h2 Hdiag) as [h3 H3].
  destruct (run_exec_files_returns env self h3 Hdiag) as [h4 H4].
  destruct (emits_load_extensions env self h1) as (e1 & He1 & HP1).
  destruct (emits_run_exec_lines env self h2) as (e2 & He2 & HP2).
  destruct (emits_run_exec_files env self h3) as (e3 & He3 & HP3).
  rewrite H2 in He1. rewrite H3 in He2. rewrite H4 in He3.
  simpl in He1, He2, He3.
  exists (e1 ++ e2 ++ e3). split.
  - rewrite (post_construct_passes env self h h1 Hbefore).
    unfold bind. rewrite H2, H3, H4. f_equal.
    rewrite He3, He2, He1. subst h1.
    repeat rewrite <- app_assoc. reflexivity.
  - by rewrite !Forall_app.
Qed.

Lemma post_construct_banner_first_witness :
  diag_ok first_fails_env ∧
  cfg_get (master_config all_fail_app) "Global" "display_banner" =
    Some (VBool true) ∧
  ∃ evs,
    post_construct first_fails_env all_fail_app [] =
    (Ok tt,
     [] ++ [Shell (set_display_banner false) None] ++
       (if truthy (VBool true) then [Shell show_banner None] else []) ++
       (if log_level first_fails_env <=? logging_INFO then [PrintLine] else []) ++
       evs) ∧
    Forall pass_event evs.
Proof.
  split; [intros h'; reflexivity |].
  split; [vm_compute; reflexivity |].
  apply (post_construct_banner_first first_fails_env all_fail_app (VBool true) []).
  - intros h'; reflexivity.
  - intros h'; reflexivity.
  - intros h'; reflexivity.
  - vm_compute; reflexivity.
Defined.
